(** * Reading tracker: the state engine of [app/page.tsx]

    A shallow embedding of the tracker state, the form handlers that mutate
    it, the start-up load from local storage and the derived statistics,
    followed by the properties of the specification that concern them.

    Modelling conventions.
    - A JavaScript [number] that holds a page or minute count is a [Z], and
      [NaN] is the [None] of an [option Z].  The numbers of the code are
      binary64 values: [Number.parseInt] and [+], [-] return the double
      nearest to the exact result.  Up to [maxSafeInteger] every integer is
      a double and the two agree; a statement that rests on an exact sum or
      difference carries that bound on the numbers entered, and
      [logOnBook_rounded] and [unlogOnBook_rounded] show that the updates
      of a book are then the same with rounded arithmetic.
    - Strings are [string]; white space is the ASCII part of the ECMAScript
      white-space set, so [trim] and [parseInt] leave U+00A0, U+FEFF and the
      other white space outside ASCII in place.
    - The local clock is a [TimeZone]: the operations [LocalTime] and [UTC]
      of ECMAScript, which [setDate] goes through.
    - The React component keeps its state in hooks; the record [App] gathers
      the hooks the handlers read and write, and a handler is a function
      from [App] to [App].  [safeId ()] and the clock are inputs of the
      handlers that use them.
    - [Map<string, Book>] is a [gmap string Book]; a plain JavaScript object
      (the persisted blob) is a [gmap string json]. *)

From Stdlib Require Import ZArith Ascii String List Lia Permutation Sorted.
From stdpp Require Import base option list gmap strings pretty fin_maps.

Local Open Scope string_scope.
Local Open Scope Z_scope.

(** ** Data model *)

Inductive BookStatus := NotStarted | InProgress | Completed.

#[global] Instance BookStatus_eq_dec : EqDecision BookStatus.
Proof. solve_decision. Defined.

(** A value of the [date] fields.  The [<input type="date">] control yields
    [""] or a canonical [YYYY-MM-DD] string, and [todayIso] yields the
    latter.  [IsoDate d] stands for the [YYYY-MM-DD] string of the calendar
    day [d] days after 1970-01-01: two such strings are equal exactly when
    their days are, and [new Date] reads one as midnight UTC of that day.
    [BadDate raw] is any string [new Date] rejects. *)
Inductive DateStr :=
  | IsoDate (day : Z)
  | BadDate (raw : string).

#[global] Instance DateStr_eq_dec : EqDecision DateStr.
Proof. solve_decision. Defined.

Module Book.
Record t := mk {
  id : string;
  title : string;
  author : string;
  totalPages : Z;
  currentPage : Z;
  status : BookStatus;
  startedAt : DateStr;
  targetDate : option string;
  notes : option string
}.
End Book.
Abbreviation Book := Book.t.

Module ReadingSession.
Record t := mk {
  id : string;
  bookId : string;
  date : DateStr;
  pagesRead : Z;
  minutes : Z;
  note : option string
}.
End ReadingSession.
Abbreviation ReadingSession := ReadingSession.t.

Record Preferences := mkPreferences {
  weeklyMinutesGoal : Z;
  dailyPagesGoal : Z;
  showCompleted : bool
}.

Record TrackerState := mkState {
  books : list Book;
  sessions : list ReadingSession;
  preferences : Preferences
}.

Record BookFormState := mkBookForm {
  bf_title : string;
  bf_author : string;
  bf_totalPages : string;
  bf_targetDate : string;
  bf_notes : string
}.

Record SessionFormState := mkSessionForm {
  sf_bookId : string;
  sf_date : DateStr;
  sf_pagesRead : string;
  sf_minutes : string;
  sf_note : string
}.

Definition DEFAULT_STATE : TrackerState :=
  {| books := [];
     sessions := [];
     preferences :=
       {| weeklyMinutesGoal := 420; dailyPagesGoal := 30; showCompleted := true |} |}.

(** ** Helpers of the module *)

Definition msPerDay : Z := 86400000.

(** [Number.MAX_SAFE_INTEGER]: up to it, in absolute value, the integers are
    binary64 values, and sums and differences that stay below it are exact. *)
Definition maxSafeInteger : Z := 2 ^ 53 - 1.

(** [new Date(t).toISOString().slice(0, 10)], as the day it denotes. *)
Definition isoDay (t : Z) : Z := t / msPerDay.

(** [todayIso ()] at clock reading [now]. *)
Definition todayIso (now : Z) : DateStr := IsoDate (isoDay now).

(** [new Date(value).getTime()]; [None] is [NaN]. *)
Definition getTime (value : DateStr) : option Z :=
  match value with
  | IsoDate d => Some (d * msPerDay)
  | BadDate _ => None
  end.

Definition clamp (value min max : Z) : Z := Z.min (Z.max value min) max.

Definition sum (values : list Z) : Z := fold_left (fun acc current => acc + current) values 0.

(** *** Strings: [trim] and [Number.parseInt (_, 10)] *)

Definition isWhiteSpace (c : ascii) : bool :=
  let n := nat_of_ascii c in
  ((9 <=? n) && (n <=? 13))%nat || (n =? 32)%nat.

Fixpoint trimStart (s : string) : string :=
  match s with
  | String c rest => if isWhiteSpace c then trimStart rest else s
  | EmptyString => EmptyString
  end.

Fixpoint revString (s acc : string) : string :=
  match s with
  | String c rest => revString rest (String c acc)
  | EmptyString => acc
  end.

Definition trimEnd (s : string) : string :=
  revString (trimStart (revString s "")) "".

Definition trim (s : string) : string := trimEnd (trimStart s).

(** [!s] on a string: only the empty string is falsy. *)
Definition isEmpty (s : string) : bool :=
  match s with EmptyString => true | _ => false end.

(** [s || undefined]. *)
Definition orUndefined (s : string) : option string :=
  if isEmpty s then None else Some s.

Definition digitValue (c : ascii) : option Z :=
  let n := nat_of_ascii c in
  if ((48 <=? n) && (n <=? 57))%nat then Some (Z.of_nat n - 48) else None.

(** The longest prefix of decimal digits, read as a number; [None] when the
    prefix is empty. *)
Fixpoint parseDigits (s : string) (acc : option Z) : option Z :=
  match s with
  | String c rest =>
      match digitValue c with
      | Some d => parseDigits rest (Some (10 * default 0 acc + d))
      | None => acc
      end
  | EmptyString => acc
  end.

(** [Number.parseInt (s, 10)].  The result is the exact integer; the code
    gets the double nearest to it, which is the same number up to
    [maxSafeInteger]. *)
Definition parseInt (s : string) : option Z :=
  match trimStart s with
  | String "-"%char rest => Z.opp <$> parseDigits rest None
  | String "+"%char rest => parseDigits rest None
  | rest => parseDigits rest None
  end.

(** [Number.isNaN(n) || n <= 0] *)
Definition notPositive (n : option Z) : bool :=
  match n with
  | None => true
  | Some v => v <=? 0
  end.

(** ** The component state and its handlers *)

Record App := mkApp {
  state : TrackerState;
  bookForm : BookFormState;
  sessionForm : SessionFormState;
  error : option string
}.

Definition emptyBookForm : BookFormState :=
  {| bf_title := ""; bf_author := ""; bf_totalPages := ""; bf_targetDate := ""; bf_notes := "" |}.

(** The hooks as [Home] creates them at clock reading [now]. *)
Definition initialApp (now : Z) : App :=
  {| state := DEFAULT_STATE;
     bookForm := emptyBookForm;
     sessionForm :=
       {| sf_bookId := ""; sf_date := todayIso now; sf_pagesRead := ""; sf_minutes := "";
          sf_note := "" |};
     error := None |}.

Definition setError (e : option string) (a : App) : App :=
  {| state := state a; bookForm := bookForm a; sessionForm := sessionForm a; error := e |}.

(** [booksById]: every book is [set] under its id, in list order, so a later
    book replaces an earlier one with the same id. *)
Definition booksById (bs : list Book) : gmap string Book :=
  fold_left (fun map book => <[Book.id book := book]> map) bs ∅.

(** [handleBookSubmit]; [newId] is the value of [safeId ()]. *)
Definition handleBookSubmit (newId : string) (now : Z) (a0 : App) : App :=
  let a := setError None a0 in
  let form := bookForm a in
  let totalPages := parseInt (bf_totalPages form) in
  if isEmpty (trim (bf_title form)) || isEmpty (trim (bf_author form)) then
    setError (Some "Title and author are both required.") a
  else
    match totalPages with
    | None => setError (Some "Total pages must be a positive number.") a
    | Some total =>
        if total <=? 0 then setError (Some "Total pages must be a positive number.") a
        else
          let newBook :=
            {| Book.id := newId;
               Book.title := trim (bf_title form);
               Book.author := trim (bf_author form);
               Book.totalPages := total;
               Book.currentPage := 0;
               Book.status := NotStarted;
               Book.startedAt := todayIso now;
               Book.targetDate := orUndefined (bf_targetDate form);
               Book.notes := orUndefined (trim (bf_notes form)) |} in
          {| state :=
               {| books := newBook :: books (state a);
                  sessions := sessions (state a);
                  preferences := preferences (state a) |};
             bookForm := emptyBookForm;
             sessionForm :=
               {| sf_bookId := newId;
                  sf_date := sf_date (sessionForm a);
                  sf_pagesRead := sf_pagesRead (sessionForm a);
                  sf_minutes := sf_minutes (sessionForm a);
                  sf_note := sf_note (sessionForm a) |};
             error := error a |}
    end.

(** The comparator handed to [sort] when a session is logged.  A [NaN]
    difference ([None]) is what [sort] reads as 0. *)
Definition byDateDesc (a b : ReadingSession) : Z :=
  match getTime (ReadingSession.date b), getTime (ReadingSession.date a) with
  | Some tb, Some ta => tb - ta
  | _, _ => 0
  end.

(** [Array.prototype.sort]: a stable sort.  With a comparator that orders the
    elements consistently the result is determined; insertion from the right
    computes it.  With a date that does not parse the comparator is not
    consistent and the order an engine gives may differ; the statements on
    the order of the sessions are about dates that parse, the others hold of
    any permutation. *)
Fixpoint insertSorted {A} (cmp : A -> A -> Z) (x : A) (l : list A) : list A :=
  match l with
  | [] => [x]
  | y :: rest => if 0 <? cmp x y then y :: insertSorted cmp x rest else x :: l
  end.

Definition sort {A} (cmp : A -> A -> Z) (l : list A) : list A :=
  fold_right (insertSorted cmp) [] l.

(** The update of one book when [clampedPages] are logged on it. *)
Definition logOnBook (clampedPages : Z) (item : Book) : Book :=
  {| Book.id := Book.id item;
     Book.title := Book.title item;
     Book.author := Book.author item;
     Book.totalPages := Book.totalPages item;
     Book.currentPage := clamp (Book.currentPage item + clampedPages) 0 (Book.totalPages item);
     Book.status :=
       if Book.totalPages item <=? Book.currentPage item + clampedPages
       then Completed else InProgress;
     Book.startedAt := Book.startedAt item;
     Book.targetDate := Book.targetDate item;
     Book.notes := Book.notes item |}.

(** [clampedPages] of [handleSessionSubmit]. *)
Definition clampedPagesOf (book : Book) (pages : Z) : Z :=
  clamp pages 1 (Z.max (Book.totalPages book - Book.currentPage book) pages).

(** [handleSessionSubmit]; [newId] is the value of [safeId ()]. *)
Definition handleSessionSubmit (newId : string) (a0 : App) : App :=
  let a := setError None a0 in
  let form := sessionForm a in
  if isEmpty (sf_bookId form) then
    setError (Some "Please pick a book before logging a session.") a
  else
    match booksById (books (state a)) !! sf_bookId form with
    | None => setError (Some "Selected book no longer exists.") a
    | Some book =>
        match parseInt (sf_pagesRead form) with
        | None => setError (Some "Pages read must be a positive number.") a
        | Some pages =>
            if pages <=? 0 then setError (Some "Pages read must be a positive number.") a
            else
              match parseInt (sf_minutes form) with
              | None => setError (Some "Minutes must be a positive number.") a
              | Some minutes =>
                  if minutes <=? 0 then setError (Some "Minutes must be a positive number.") a
                  else
                    let clampedPages := clampedPagesOf book pages in
                    let newSession :=
                      {| ReadingSession.id := newId;
                         ReadingSession.bookId := Book.id book;
                         ReadingSession.date := sf_date form;
                         ReadingSession.pagesRead := clampedPages;
                         ReadingSession.minutes := minutes;
                         ReadingSession.note := orUndefined (trim (sf_note form)) |} in
                    {| state :=
                         {| books :=
                              map (fun item =>
                                     if String.eqb (Book.id item) (Book.id book)
                                     then logOnBook clampedPages item else item)
                                  (books (state a));
                            sessions := sort byDateDesc (newSession :: sessions (state a));
                            preferences := preferences (state a) |};
                       bookForm := bookForm a;
                       sessionForm :=
                         {| sf_bookId := sf_bookId form;
                            sf_date := sf_date form;
                            sf_pagesRead := "";
                            sf_minutes := "";
                            sf_note := "" |};
                       error := error a |}
              end
        end
    end.

(** The update of one book by [updateBookProgress]. *)
Definition progressOnBook (value : Z) (book : Book) : Book :=
  {| Book.id := Book.id book;
     Book.title := Book.title book;
     Book.author := Book.author book;
     Book.totalPages := Book.totalPages book;
     Book.currentPage := clamp value 0 (Book.totalPages book);
     Book.status :=
       if Book.totalPages book <=? value then Completed
       else if value =? 0 then NotStarted else InProgress;
     Book.startedAt := Book.startedAt book;
     Book.targetDate := Book.targetDate book;
     Book.notes := Book.notes book |}.

Definition setBooks (bs : list Book) (ss : list ReadingSession) (a : App) : App :=
  {| state := {| books := bs; sessions := ss; preferences := preferences (state a) |};
     bookForm := bookForm a;
     sessionForm := sessionForm a;
     error := error a |}.

Definition updateBookProgress (bookId : string) (value : Z) (a : App) : App :=
  setBooks
    (map (fun book => if String.eqb (Book.id book) bookId then progressOnBook value book else book)
         (books (state a)))
    (sessions (state a)) a.

(** The update of one book when [session] is removed. *)
Definition unlogOnBook (session : ReadingSession) (item : Book) : Book :=
  {| Book.id := Book.id item;
     Book.title := Book.title item;
     Book.author := Book.author item;
     Book.totalPages := Book.totalPages item;
     Book.currentPage :=
       clamp (Book.currentPage item - ReadingSession.pagesRead session) 0 (Book.totalPages item);
     Book.status :=
       if Book.currentPage item - ReadingSession.pagesRead session <=? 0
       then NotStarted else InProgress;
     Book.startedAt := Book.startedAt item;
     Book.targetDate := Book.targetDate item;
     Book.notes := Book.notes item |}.

(** [removeSession].  The handler looks the session up in the state of the
    current render and updates the state the setter receives; the handlers
    run one at a time on the rendered state, so the two are the same. *)
Definition removeSession (sessionId : string) (a : App) : App :=
  match find (fun item => String.eqb (ReadingSession.id item) sessionId) (sessions (state a)) with
  | None => a
  | Some session =>
      setBooks
        (map (fun item =>
                if String.eqb (Book.id item) (ReadingSession.bookId session)
                then unlogOnBook session item else item)
             (books (state a)))
        (List.filter (fun item => negb (String.eqb (ReadingSession.id item) sessionId))
                (sessions (state a)))
        a
  end.

Definition setPreferences (p : Preferences) (a : App) : App :=
  {| state := {| books := books (state a); sessions := sessions (state a); preferences := p |};
     bookForm := bookForm a;
     sessionForm := sessionForm a;
     error := error a |}.

Definition toggleCompletedVisibility (a : App) : App :=
  let p := preferences (state a) in
  setPreferences
    {| weeklyMinutesGoal := weeklyMinutesGoal p;
       dailyPagesGoal := dailyPagesGoal p;
       showCompleted := negb (showCompleted p) |} a.

Inductive GoalField := WeeklyMinutesGoal | DailyPagesGoal.

(** [updateGoal]; [value] is [None] for [NaN]. *)
Definition updateGoal (field : GoalField) (value : option Z) (a : App) : App :=
  match value with
  | None => a
  | Some v =>
      if v <=? 0 then a
      else
        let p := preferences (state a) in
        setPreferences
          match field with
          | WeeklyMinutesGoal =>
              {| weeklyMinutesGoal := v; dailyPagesGoal := dailyPagesGoal p;
                 showCompleted := showCompleted p |}
          | DailyPagesGoal =>
              {| weeklyMinutesGoal := weeklyMinutesGoal p; dailyPagesGoal := v;
                 showCompleted := showCompleted p |}
          end a
  end.

(** ** Derived statistics *)

Definition totalPagesRead (ss : list ReadingSession) : Z := sum (map ReadingSession.pagesRead ss).

Definition totalMinutes (ss : list ReadingSession) : Z := sum (map ReadingSession.minutes ss).

(** [weekStart].  [now] is the clock reading and [tz] the offset of local
    time from UTC, both in milliseconds; the offset is taken as fixed over
    the days involved.  [setDate] and [setHours] work on the local reading
    [now + tz]. *)
Definition weekStart (now tz : Z) : Z :=
  let base := now + tz in
  let base := base - 6 * msPerDay in
  let base := base / msPerDay * msPerDay in
  base - tz.

(** [new Date(session.date) >= weekStart]; a comparison with [NaN] is false. *)
Definition onOrAfter (start : Z) (session : ReadingSession) : bool :=
  match getTime (ReadingSession.date session) with
  | Some t => start <=? t
  | None => false
  end.

Definition sessionsThisWeek (now tz : Z) (ss : list ReadingSession) : list ReadingSession :=
  List.filter (onOrAfter (weekStart now tz)) ss.

Definition minutesThisWeek (now tz : Z) (ss : list ReadingSession) : Z :=
  sum (map ReadingSession.minutes (sessionsThisWeek now tz ss)).

Definition pagesThisWeek (now tz : Z) (ss : list ReadingSession) : Z :=
  sum (map ReadingSession.pagesRead (sessionsThisWeek now tz ss)).

(** [days.has(key)] for the key of the instant [t]; [days] lists the elements
    of the [Set] of session dates. *)
Definition has (days : list DateStr) (t : Z) : bool :=
  bool_decide (IsoDate (isoDay t) ∈ days).

(** The time zone of the host: [LocalTime zone t] is the local reading of
    the instant [t] and [UTC zone l] the instant of the local reading [l],
    in milliseconds. *)
Record TimeZone := mkTimeZone {
  LocalTime : Z -> Z;
  UTC : Z -> Z
}.

(** A zone that keeps one offset [tz] from UTC. *)
Definition fixedOffset (tz : Z) : TimeZone :=
  {| LocalTime := fun t => t + tz; UTC := fun l => l - tz |}.

(** [current.setDate(current.getDate() - 1)]: the same local time of day on
    the local calendar day before. *)
Definition previousLocalDay (zone : TimeZone) (current : Z) : Z :=
  UTC zone (LocalTime zone current - msPerDay).

(** The [for (;;)] loop of [streak], [fuel] iterations of it at most. *)
Fixpoint streakLoop (fuel : nat) (zone : TimeZone) (days : list DateStr) (current counter : Z) :
    option Z :=
  match fuel with
  | O => None
  | S fuel =>
      if has days current
      then streakLoop fuel zone days (previousLocalDay zone current) (counter + 1)
      else if (counter =? 0) && has days (current - 86400000)
      then streakLoop fuel zone days (previousLocalDay zone current) counter
      else Some counter
  end.

(** [streak] at clock reading [now].  In a zone of days of 24 hours, twice
    the number of sessions bounds the iterations of the loop before its
    [break] ([streak_returns]). *)
Definition streak (zone : TimeZone) (now : Z) (ss : list ReadingSession) : option Z :=
  match ss with
  | [] => Some 0
  | _ => streakLoop (S (2 * length ss)) zone (map ReadingSession.date ss) now 0
  end.

(** ** Loading the persisted state *)

(** The values [JSON.parse] returns.  Numbers are integers: the application
    writes no others. *)
#[local] Unset Elimination Schemes.
Inductive json :=
  | JNull
  | JBool (b : bool)
  | JNum (n : Z)
  | JStr (s : string)
  | JArr (items : list json)
  | JObj (fields : gmap string json).
#[local] Set Elimination Schemes.

(** The own enumerable properties of the elements of an array or of the
    characters of a string, from index [i] on. *)
Fixpoint indexed {A} (f : A -> json) (i : nat) (l : list A) : gmap string json :=
  match l with
  | [] => ∅
  | x :: rest => <[pretty i := f x]> (indexed f (S i) rest)
  end.

(** The properties an object spread [...v] copies; [None] is [undefined]. *)
Definition spread (v : option json) : gmap string json :=
  match v with
  | Some (JObj fields) => fields
  | Some (JArr items) => indexed (fun x => x) 0 items
  | Some (JStr s) => indexed (fun c => JStr (String c "")) 0 (list_ascii_of_string s)
  | _ => ∅
  end.

(** [parsed.preferences]: a [TypeError] ([None]) on [null], the property of
    an object, and [undefined] ([Some None]) on the other values, none of
    which has a property of that name. *)
Definition getPreferences (parsed : json) : option (option json) :=
  match parsed with
  | JNull => None
  | JObj fields => Some (fields !! "preferences")
  | _ => Some None
  end.

Definition jsonOfPreferences (p : Preferences) : gmap string json :=
  <["weeklyMinutesGoal" := JNum (weeklyMinutesGoal p)]>
    (<["dailyPagesGoal" := JNum (dailyPagesGoal p)]>
       (<["showCompleted" := JBool (showCompleted p)]> ∅)).

(** [DEFAULT_STATE] as the object the spread reads. *)
Definition DEFAULT_STATE_js : gmap string json :=
  <["books" := JArr []]>
    (<["sessions" := JArr []]>
       (<["preferences" := JObj (jsonOfPreferences (preferences DEFAULT_STATE))]> ∅)).

Section Load.

(** [JSON.parse]; [None] when it throws. *)
Variable JSON_parse : string -> option json.

(** The state after the load effect has run, [raw] being what
    [localStorage.getItem] returned ([None] for [null]).  An object spread
    lets the later source win, which is the left operand of [∪]. *)
Definition hydrate (raw : option string) : gmap string json :=
  match raw with
  | None => DEFAULT_STATE_js
  | Some raw =>
      if isEmpty raw then DEFAULT_STATE_js
      else
        match JSON_parse raw with
        | None => DEFAULT_STATE_js
        | Some parsed =>
            match getPreferences parsed with
            | None => DEFAULT_STATE_js
            | Some prefs =>
                <["preferences" :=
                    JObj (spread prefs ∪ jsonOfPreferences (preferences DEFAULT_STATE))]>
                  (spread (Some parsed) ∪ DEFAULT_STATE_js)
            end
        end
  end.

End Load.

(** ** Operations as the specification names them

    A run of the tracker is a list of operations.  An operation that goes
    through a form first fills the form in, as the user does, and then
    submits it. *)

Definition setBookForm (form : BookFormState) (a : App) : App :=
  {| state := state a; bookForm := form; sessionForm := sessionForm a; error := error a |}.

Definition setSessionForm (form : SessionFormState) (a : App) : App :=
  {| state := state a; bookForm := bookForm a; sessionForm := form; error := error a |}.

Inductive Op :=
  | AddBook (form : BookFormState) (newId : string) (now : Z)
  | LogSession (form : SessionFormState) (newId : string)
  | RemoveSession (sessionId : string)
  | SetBookProgress (bookId : string) (newPage : Z).

Definition applyOp (a : App) (o : Op) : App :=
  match o with
  | AddBook form newId now => handleBookSubmit newId now (setBookForm form a)
  | LogSession form newId => handleSessionSubmit newId (setSessionForm form a)
  | RemoveSession sessionId => removeSession sessionId a
  | SetBookProgress bookId newPage => updateBookProgress bookId newPage a
  end.

Definition run (ops : list Op) (a : App) : App := fold_left applyOp ops a.

(** [admissible ok a ops]: every operation of the run satisfies [ok] in the
    state it is applied to. *)
Fixpoint admissible (ok : App -> Op -> bool) (a : App) (ops : list Op) : bool :=
  match ops with
  | [] => true
  | o :: rest => ok a o && admissible ok (applyOp a o) rest
  end.

Definition bookIds (a : App) : list string := map Book.id (books (state a)).

Definition sessionIds (a : App) : list string := map ReadingSession.id (sessions (state a)).

(** [safeId ()] returns an id that is not in use. *)
Definition freshId (a : App) (o : Op) : bool :=
  match o with
  | AddBook _ newId _ => bool_decide (newId ∉ bookIds a)
  | LogSession _ newId => bool_decide (newId ∉ sessionIds a)
  | _ => true
  end.

(** A session form that passes the checks of [handleSessionSubmit]: it names
    [book] and holds the positive numbers [pages] and [minutes]. *)
Definition validSession (a : App) (book : Book) (pages minutes : Z) : Prop :=
  sf_bookId (sessionForm a) <> ""
  /\ booksById (books (state a)) !! sf_bookId (sessionForm a) = Some book
  /\ parseInt (sf_pagesRead (sessionForm a)) = Some pages /\ 0 < pages
  /\ parseInt (sf_minutes (sessionForm a)) = Some minutes /\ 0 < minutes.

(** The pages of the sessions logged on the book [bookId]. *)
Definition pagesLoggedOn (bookId : string) (ss : list ReadingSession) : Z :=
  sum (map ReadingSession.pagesRead
           (List.filter (fun s => String.eqb (ReadingSession.bookId s) bookId) ss)).

(** ** Definitions used by the statements and proofs *)

(** One step of the loop that fills [booksById]. *)
Definition setById (map : gmap string Book) (book : Book) : gmap string Book :=
  <[Book.id book := book]> map.

(** The function [handleSessionSubmit] maps over the books, once its
    [clampedPages] is known to be [pages]. *)
Definition logUpdate (book : Book) (pages : Z) (item : Book) : Book :=
  if String.eqb (Book.id item) (Book.id book) then logOnBook pages item else item.

(** The session [handleSessionSubmit] stores. *)
Definition loggedSession (a : App) (newId : string) (book : Book) (pages minutes : Z) :
    ReadingSession :=
  {| ReadingSession.id := newId;
     ReadingSession.bookId := Book.id book;
     ReadingSession.date := sf_date (sessionForm a);
     ReadingSession.pagesRead := pages;
     ReadingSession.minutes := minutes;
     ReadingSession.note := orUndefined (trim (sf_note (sessionForm a))) |}.

(** The function [removeSession] maps over the books. *)
Definition unlogUpdate (session : ReadingSession) (item : Book) : Book :=
  if String.eqb (Book.id item) (ReadingSession.bookId session)
  then unlogOnBook session item else item.


(** The claim of an exact round trip, for one application state: the book
    named by the session form is back at its page count once the session
    logged under [newId] has been removed again. *)
Definition restoredAfterLogAndRemove (a : App) (newId : string) (book : Book) : Prop :=
  exists book',
    booksById (books (state (removeSession newId (handleSessionSubmit newId a))))
      !! Book.id book = Some book'
    /\ Book.currentPage book' = Book.currentPage book.

(** [status] agrees with the page counts of the book. *)
Definition statusAgrees (b : Book) : Prop :=
  (Book.status b = Completed <-> Book.totalPages b <= Book.currentPage b)
  /\ (Book.status b = NotStarted <-> Book.currentPage b = 0)
  /\ (Book.status b = InProgress
      <-> Book.currentPage b <> 0 /\ Book.currentPage b < Book.totalPages b).

(** The slider of a book card has the range [0 .. totalPages]: it never
    hands [updateBookProgress] a negative page. *)
Definition progressNotNegative (a : App) (o : Op) : bool :=
  match o with
  | SetBookProgress _ newPage => 0 <=? newPage
  | _ => true
  end.

(** What the handlers maintain of a book and of a session. *)
Definition bookOk (b : Book) : Prop :=
  0 < Book.totalPages b
  /\ 0 <= Book.currentPage b <= Book.totalPages b
  /\ statusAgrees b.

Definition sessionOk (s : ReadingSession) : Prop := 1 <= ReadingSession.pagesRead s.

Definition stateOk (a : App) : Prop :=
  Forall bookOk (books (state a)) /\ Forall sessionOk (sessions (state a)).

(** A number read from a form is at most [maxSafeInteger], if it is a number
    at all. *)
Definition withinSafe (n : option Z) : bool :=
  match n with
  | Some v => v <=? maxSafeInteger
  | None => true
  end.

(** The numbers typed into the forms stay within [maxSafeInteger], where
    [Number.parseInt] is exact. *)
Definition safeEntries (a : App) (o : Op) : bool :=
  match o with
  | AddBook form _ _ => withinSafe (parseInt (bf_totalPages form))
  | LogSession form _ =>
      withinSafe (parseInt (sf_pagesRead form)) && withinSafe (parseInt (sf_minutes form))
  | _ => true
  end.

(** Both: pages from the slider and safe numbers in the forms. *)
Definition sliderAndSafeEntries (a : App) (o : Op) : bool :=
  progressNotNegative a o && safeEntries a o.

(** No book is longer than [maxSafeInteger] pages. *)
Definition totalsSafe (a : App) : Prop :=
  Forall (fun b => Book.totalPages b <= maxSafeInteger) (books (state a)).

(** What rounding to the nearest binary64 value does to integers: nothing up
    to [maxSafeInteger], and it keeps the order. *)
Definition roundsLikeBinary64 (round : Z -> Z) : Prop :=
  (forall z, - maxSafeInteger <= z <= maxSafeInteger -> round z = z)
  /\ (forall x y, x <= y -> round x <= round y).

(** [clampedPages] and the two updates of a book with the rounding of each
    sum and difference written out. *)
Definition clampedPagesRounded (round : Z -> Z) (book : Book) (pages : Z) : Z :=
  clamp pages 1 (Z.max (round (Book.totalPages book - Book.currentPage book)) pages).

Definition logOnBookRounded (round : Z -> Z) (clampedPages : Z) (item : Book) : Book :=
  {| Book.id := Book.id item;
     Book.title := Book.title item;
     Book.author := Book.author item;
     Book.totalPages := Book.totalPages item;
     Book.currentPage :=
       clamp (round (Book.currentPage item + clampedPages)) 0 (Book.totalPages item);
     Book.status :=
       if Book.totalPages item <=? round (Book.currentPage item + clampedPages)
       then Completed else InProgress;
     Book.startedAt := Book.startedAt item;
     Book.targetDate := Book.targetDate item;
     Book.notes := Book.notes item |}.

Definition unlogOnBookRounded (round : Z -> Z) (session : ReadingSession) (item : Book) : Book :=
  {| Book.id := Book.id item;
     Book.title := Book.title item;
     Book.author := Book.author item;
     Book.totalPages := Book.totalPages item;
     Book.currentPage :=
       clamp (round (Book.currentPage item - ReadingSession.pagesRead session)) 0
             (Book.totalPages item);
     Book.status :=
       if round (Book.currentPage item - ReadingSession.pagesRead session) <=? 0
       then NotStarted else InProgress;
     Book.startedAt := Book.startedAt item;
     Book.targetDate := Book.targetDate item;
     Book.notes := Book.notes item |}.

(** The pages of the form fit in what remains of the book it names. *)
Definition pagesFit (a : App) (form : SessionFormState) : bool :=
  match booksById (books (state a)) !! sf_bookId form, parseInt (sf_pagesRead form) with
  | Some book, Some pages => pages <=? Book.totalPages book - Book.currentPage book
  | _, _ => true
  end.

(** Runs without manual progress changes, with ids that are not in use. *)
Definition sessionOpsOnly (a : App) (o : Op) : bool :=
  match o with
  | SetBookProgress _ _ => false
  | _ => freshId a o
  end.

(** Such runs in which, moreover, no session goes past the end of its book. *)
Definition fittingSessionOpsOnly (a : App) (o : Op) : bool :=
  sessionOpsOnly a o &&
  match o with
  | LogSession form _ => pagesFit a form
  | _ => true
  end.

(** [currentPage] is the sum of the pages of the sessions of the book. *)
Definition pageIsSessionSum (a : App) (book : Book) : Prop :=
  Book.currentPage book = pagesLoggedOn (Book.id book) (sessions (state a)).

Definition ledgerOk (a : App) : Prop :=
  List.NoDup (bookIds a)
  /\ List.NoDup (sessionIds a)
  /\ Forall sessionOk (sessions (state a))
  /\ Forall (fun s => In (ReadingSession.bookId s) (bookIds a)) (sessions (state a))
  /\ Forall (fun b => 0 <= Book.currentPage b <= Book.totalPages b /\ pageIsSessionSum a b)
            (books (state a)).

(** Such runs with safe numbers in the forms. *)
Definition fittingAndSafe (a : App) (o : Op) : bool :=
  fittingSessionOpsOnly a o && safeEntries a o.

(** The calendar day of the local clock reading. *)
Definition localToday (now tz : Z) : Z := (now + tz) / msPerDay.

(** The week window as the specification words it: the dates from six days
    before [today] up to [today]. *)
Definition inWeekWindow (today : Z) (session : ReadingSession) : bool :=
  match ReadingSession.date session with
  | IsoDate d => (today - 6 <=? d) && (d <=? today)
  | BadDate _ => false
  end.

(** The dates from the day [start] on. *)
Definition datedFrom (start : Z) (session : ReadingSession) : bool :=
  match ReadingSession.date session with
  | IsoDate d => start <=? d
  | BadDate _ => false
  end.

Definition sampleSession (sid : string) (day pages minutes : Z) : ReadingSession :=
  {| ReadingSession.id := sid; ReadingSession.bookId := "b1"; ReadingSession.date := IsoDate day;
     ReadingSession.pagesRead := pages; ReadingSession.minutes := minutes;
     ReadingSession.note := None |}.

(** The day [d] has a session. *)
Definition loggedOn (ss : list ReadingSession) (d : Z) : Prop :=
  In (IsoDate d) (map ReadingSession.date ss).

(** Exactly the [n] days that end with [d] have a session: the day before
    them has none. *)
Definition runOfDays (ss : list ReadingSession) (d : Z) (n : nat) : Prop :=
  (forall i : nat, (i < n)%nat -> loggedOn ss (d - Z.of_nat i))
  /\ ~ loggedOn ss (d - Z.of_nat n).

(** New York around the end of daylight saving time in 2024: four hours
    behind UTC until 2024-11-03 06:00 UTC, five hours behind from then on.
    A local reading before 02:00 of that day is taken with the earlier
    offset. *)
Definition newYorkAutumn2024 : TimeZone :=
  {| LocalTime := fun t => if t <? 1730613600000 then t - 14400000 else t - 18000000;
     UTC := fun l => if l <? 1730613600000 - 14400000 then l + 14400000 else l + 18000000 |}.

(** 2024-11-04 at 00:30 UTC, which is 19:30 of 2024-11-03 in New York. *)
Definition eveningAfterClockChange : Z := 1730680200000.

(** Sessions on 2024-11-04, 2024-11-03 and 2024-11-02, days 20031, 20030
    and 20029. *)
Definition threeDaysRunning : list ReadingSession :=
  [sampleSession "s3" 20031 5 10; sampleSession "s2" 20030 5 10; sampleSession "s1" 20029 5 10].

(** A property lookup that falls back on a second object. *)
Definition orDefault (fields defaults : gmap string json) (k : string) : option json :=
  match fields !! k with
  | Some v => Some v
  | None => defaults !! k
  end.

(** A stand-in for [JSON.parse] that knows two blobs: a state saved without
    its preferences and one saved with a single preference. *)
Definition sampleParse (raw : string) : option json :=
  if String.eqb raw "blob without preferences"
  then Some (JObj (<["books" := JArr [JStr "a book"]]> (<["sessions" := JArr []]> ∅)))
  else if String.eqb raw "blob with one preference"
  then Some (JObj (<["preferences" := JObj (<["dailyPagesGoal" := JNum 50]> ∅)]> ∅))
  else None.

(** ** Sample data *)

Definition sampleBook (current : Z) (st : BookStatus) : Book :=
  {| Book.id := "b1"; Book.title := "Dune"; Book.author := "Frank Herbert";
     Book.totalPages := 100; Book.currentPage := current; Book.status := st;
     Book.startedAt := IsoDate 20000; Book.targetDate := None; Book.notes := None |}.

Definition sampleBookForm (total : string) : BookFormState :=
  {| bf_title := " Dune "; bf_author := "Frank Herbert"; bf_totalPages := total;
     bf_targetDate := ""; bf_notes := "" |}.

Definition sampleSessionForm (day : Z) (pages : string) : SessionFormState :=
  {| sf_bookId := "b1"; sf_date := IsoDate day; sf_pagesRead := pages; sf_minutes := "30";
     sf_note := "" |}.

(** A clock reading in the course of day 20000. *)
Definition sampleNow : Z := 20000 * msPerDay + 45000000.

(** One book of 100 pages, 90 of them read in one session. *)
Definition appAt90 : App :=
  run [AddBook (sampleBookForm "100") "b1" sampleNow;
       LogSession (sampleSessionForm 20000 "90") "s1"] (initialApp sampleNow).

(** The same book, read to its last page in one session. *)
Definition appAt100 : App :=
  run [AddBook (sampleBookForm "100") "b1" sampleNow;
       LogSession (sampleSessionForm 20000 "100") "s1"] (initialApp sampleNow).

(** ** The remaining derived values and the form effect *)


(** [book.status === "completed"] *)
Definition isCompleted (book : Book) : bool := bool_decide (Book.status book = Completed).

Definition completedBooks (bs : list Book) : list Book := List.filter isCompleted bs.

Definition activeBooks (bs : list Book) : list Book :=
  List.filter (fun book => negb (isCompleted book)) bs.

Definition filteredBooks (s : TrackerState) : list Book :=
  if showCompleted (preferences s) then books s
  else List.filter (fun book => negb (isCompleted book)) (books s).

(** [Math.round (a / b)] for a positive [b]: the nearest integer, halves
    going up. *)
Definition roundQuotient (a b : Z) : Z := (2 * a + b) / (2 * b).

(** [totalDays]: the sessions with a date that parses, by ascending time. *)
Definition totalDays (ss : list ReadingSession) : Z :=
  match ss with
  | [] => 0
  | _ =>
      let timestamps :=
        sort (fun a b => a - b) (omap (fun session => getTime (ReadingSession.date session)) ss) in
      match timestamps with
      | [] => 0
      | first :: _ =>
          let last := List.last timestamps first in
          let diffMs := last - first in
          Z.max 1 (roundQuotient diffMs msPerDay + 1)
      end
  end.

(** [uniqueDays]: the size of the [Set] of the session dates. *)
Definition uniqueDays (ss : list ReadingSession) : nat :=
  length (nodup DateStr_eq_dec (map ReadingSession.date ss)).

(** The session has a date that parses. *)
Definition hasIsoDate (session : ReadingSession) : Prop :=
  exists d, ReadingSession.date session = IsoDate d.

(** [a] is dated no earlier than [b]. *)
Definition notEarlier (a b : ReadingSession) : Prop :=
  exists da db,
    ReadingSession.date a = IsoDate da /\ ReadingSession.date b = IsoDate db /\ db <= da.

(** The date picker hands [handleSessionSubmit] a date that parses. *)
Definition datePicked (a : App) (o : Op) : bool :=
  match o with
  | LogSession form _ => match sf_date form with IsoDate _ => true | BadDate _ => false end
  | _ => true
  end.

(** A book form that passes the checks of [handleBookSubmit], with the
    total it holds. *)
Definition validBook (a : App) (total : Z) : Prop :=
  trim (bf_title (bookForm a)) <> "" /\ trim (bf_author (bookForm a)) <> ""
  /\ parseInt (bf_totalPages (bookForm a)) = Some total /\ 0 < total.

(** The sessions carry dates that parse and run from the latest date to the
    earliest. *)
Definition newestFirst (a : App) : Prop :=
  Forall hasIsoDate (sessions (state a)) /\ StronglySorted notEarlier (sessions (state a)).


(** The goal stored under a field of the preferences. *)
Definition goalOf (field : GoalField) (p : Preferences) : Z :=
  match field with
  | WeeklyMinutesGoal => weeklyMinutesGoal p
  | DailyPagesGoal => dailyPagesGoal p
  end.


(** Every session names a listed book. *)
Definition sessionsNameBooks (a : App) : Prop :=
  Forall (fun s => In (ReadingSession.bookId s) (bookIds a)) (sessions (state a)).


(** * Properties *)

(** ** The string helpers on sample inputs *)

Example parseInt_examples :
  parseInt "50" = Some 50 /\ parseInt "  12abc" = Some 12 /\ parseInt "-5" = Some (-5)
  /\ parseInt "+7" = Some 7 /\ parseInt "" = None /\ parseInt "-" = None
  /\ parseInt "x1" = None /\ parseInt "0" = Some 0.
Proof. repeat split; reflexivity. Qed.

Example trim_examples :
  trim "  a b  " = "a b" /\ trim "   " = "" /\ trim "" = "" /\ trim "x" = "x".
Proof. repeat split; reflexivity. Qed.

(** ** Arithmetic of [clamp] *)

Lemma clamp_between (v lo hi : Z) : lo <= v <= hi -> clamp v lo hi = v.
Proof. unfold clamp. lia. Qed.

Lemma clamp_above (v lo hi : Z) : lo <= hi -> hi <= v -> clamp v lo hi = hi.
Proof. unfold clamp. lia. Qed.

Lemma clamp_below (v lo hi : Z) : lo <= hi -> v <= lo -> clamp v lo hi = lo.
Proof. unfold clamp. lia. Qed.

(** The upper bound handed to [clamp] is never below [pages], so a positive
    entry passes through unchanged. *)
Lemma clampedPagesOf_raw (book : Book) (pages : Z) :
  1 <= pages -> clampedPagesOf book pages = pages.
Proof. unfold clampedPagesOf, clamp. lia. Qed.

(** ** [booksById] *)

Lemma booksById_fold (bs : list Book) : booksById bs = fold_left setById bs ∅.
Proof. reflexivity. Qed.

Lemma fold_setById_lookup (bs : list Book) (m : gmap string Book) (k : string) (b : Book) :
  fold_left setById bs m !! k = Some b ->
  (Book.id b = k /\ In b bs) \/ m !! k = Some b.
Proof.
  revert m. induction bs as [|x bs IH]; intros m H; simpl in *.
  - by right.
  - destruct (IH _ H) as [[Hid Hin]|Hm].
    + left. auto.
    + unfold setById in Hm. rewrite lookup_insert in Hm. case_decide.
      * inversion Hm; subst. left. auto.
      * by right.
Qed.

Lemma booksById_lookup (bs : list Book) (k : string) (b : Book) :
  booksById bs !! k = Some b -> Book.id b = k /\ In b bs.
Proof.
  rewrite booksById_fold. intros H.
  destruct (fold_setById_lookup _ _ _ _ H) as [?|Hm]; [done|].
  by rewrite lookup_empty in Hm.
Qed.

Lemma fold_setById_map (f : Book -> Book) (bs : list Book) (m : gmap string Book) :
  (forall b, Book.id (f b) = Book.id b) ->
  fold_left setById (map f bs) (f <$> m) = f <$> fold_left setById bs m.
Proof.
  intros Hid. revert m. induction bs as [|x bs IH]; intros m; simpl; [done|].
  rewrite <- IH. f_equal. unfold setById. by rewrite fmap_insert, Hid.
Qed.

Lemma booksById_map (f : Book -> Book) (bs : list Book) (k : string) :
  (forall b, Book.id (f b) = Book.id b) ->
  booksById (map f bs) !! k = f <$> booksById bs !! k.
Proof.
  intros Hid. rewrite !booksById_fold.
  rewrite <- (fmap_empty f) at 1. rewrite fold_setById_map by done.
  apply lookup_fmap.
Qed.

(** ** [sort] permutes *)

Lemma insertSorted_perm {A} (cmp : A -> A -> Z) (x : A) (l : list A) :
  Permutation (insertSorted cmp x l) (x :: l).
Proof.
  induction l as [|y l IH]; simpl; [done|].
  destruct (0 <? cmp x y); [|done].
  rewrite IH. apply perm_swap.
Qed.

Lemma sort_perm {A} (cmp : A -> A -> Z) (l : list A) : Permutation (sort cmp l) l.
Proof.
  induction l as [|x l IH]; simpl; [done|].
  rewrite insertSorted_perm. by constructor.
Qed.

(** ** The outcome of a submitted session *)

Lemma isEmpty_false (s : string) : s <> "" -> isEmpty s = false.
Proof. by destruct s. Qed.

Lemma handleSessionSubmit_valid (a : App) (newId : string) (book : Book) (pages minutes : Z) :
  validSession a book pages minutes ->
  books (state (handleSessionSubmit newId a)) = map (logUpdate book pages) (books (state a))
  /\ sessions (state (handleSessionSubmit newId a)) =
       sort byDateDesc (loggedSession a newId book pages minutes :: sessions (state a))
  /\ preferences (state (handleSessionSubmit newId a)) = preferences (state a)
  /\ error (handleSessionSubmit newId a) = None.
Proof.
  intros (Hne & Hbook & Hp & Hp0 & Hm & Hm0).
  unfold handleSessionSubmit. cbn [setError sessionForm state].
  rewrite (isEmpty_false _ Hne), Hbook, Hp, Hm.
  assert ((pages <=? 0) = false) as -> by lia.
  assert ((minutes <=? 0) = false) as -> by lia.
  cbn [state books sessions preferences error].
  rewrite clampedPagesOf_raw by lia. done.
Qed.

Lemma logUpdate_id (book : Book) (pages : Z) (item : Book) :
  Book.id (logUpdate book pages item) = Book.id item.
Proof. unfold logUpdate. by destruct (String.eqb _ _). Qed.

(** ** Exact and rounded arithmetic *)

(** A positive entry passes through [clampedPages] unchanged whatever the
    rounding of the remaining pages. *)
Lemma clampedPages_rounded (round : Z -> Z) (book : Book) (pages : Z) :
  1 <= pages -> clampedPagesRounded round book pages = clampedPagesOf book pages.
Proof. intros Hp. unfold clampedPagesRounded, clampedPagesOf, clamp. lia. Qed.

(** On a book of at most [maxSafeInteger] pages whose page count is within
    the book, logging with rounded arithmetic gives the book that exact
    arithmetic gives. *)
Lemma logOnBook_rounded (round : Z -> Z) (pages : Z) (item : Book) :
  roundsLikeBinary64 round ->
  0 <= Book.currentPage item <= Book.totalPages item ->
  Book.totalPages item <= maxSafeInteger ->
  0 <= pages ->
  logOnBookRounded round pages item = logOnBook pages item.
Proof.
  intros [Hexact Hmono] Hc Ht Hp.
  assert (round (Book.currentPage item + pages) = Book.currentPage item + pages
          \/ (Book.totalPages item <= round (Book.currentPage item + pages)
              /\ Book.totalPages item <= Book.currentPage item + pages)) as Hsum.
  { destruct (Z.le_gt_cases (Book.currentPage item + pages) maxSafeInteger) as [Hle|Hgt].
    - left. apply Hexact. lia.
    - right. split; [|lia].
      pose proof (Hmono maxSafeInteger (Book.currentPage item + pages) ltac:(lia)) as Hm.
      rewrite (Hexact maxSafeInteger) in Hm by (unfold maxSafeInteger; lia). lia. }
  unfold logOnBookRounded, logOnBook.
  destruct Hsum as [->|[Hr He]]; [done|].
  f_equal.
  - unfold clamp. lia.
  - destruct (Z.leb_spec (Book.totalPages item) (round (Book.currentPage item + pages)));
      destruct (Z.leb_spec (Book.totalPages item) (Book.currentPage item + pages)); done || lia.
Qed.

(** The same for the removal of a session. *)
Lemma unlogOnBook_rounded (round : Z -> Z) (session : ReadingSession) (item : Book) :
  roundsLikeBinary64 round ->
  0 <= Book.currentPage item <= Book.totalPages item ->
  Book.totalPages item <= maxSafeInteger ->
  0 <= ReadingSession.pagesRead session ->
  unlogOnBookRounded round session item = unlogOnBook session item.
Proof.
  intros [Hexact Hmono] Hc Ht Hp.
  set (d := Book.currentPage item - ReadingSession.pagesRead session).
  assert (round d = d \/ (round d <= 0 /\ d <= 0)) as Hdiff.
  { destruct (Z.le_gt_cases (- maxSafeInteger) d) as [Hle|Hgt].
    - left. apply Hexact. unfold d in *. lia.
    - right. split; [|unfold maxSafeInteger in Hgt; lia].
      pose proof (Hmono d (- maxSafeInteger) ltac:(lia)) as Hm.
      rewrite (Hexact (- maxSafeInteger)) in Hm by (unfold maxSafeInteger; lia).
      unfold maxSafeInteger in Hm. lia. }
  unfold unlogOnBookRounded, unlogOnBook. fold d.
  destruct Hdiff as [->|[Hr He]]; [done|].
  f_equal.
  - unfold clamp. lia.
  - destruct (Z.leb_spec (round d) 0); destruct (Z.leb_spec d 0); done || lia.
Qed.

Example appAt90_book : books (state appAt90) = [sampleBook 90 InProgress].
Proof. reflexivity. Qed.

Example appAt100_book : books (state appAt100) = [sampleBook 100 Completed].
Proof. reflexivity. Qed.

(** ** C7: a session that overshoots completes the book *)

(** C7.  On a book with [currentPage < totalPages], a valid session whose
    pages exceed the remaining pages leaves the book at exactly [totalPages]
    with status [Completed]. *)
Theorem log_beyond_remaining_completes
    (a : App) (newId : string) (book : Book) (pages minutes : Z) :
  validSession a book pages minutes ->
  Book.currentPage book < Book.totalPages book ->
  Book.totalPages book - Book.currentPage book < pages ->
  exists book',
    booksById (books (state (handleSessionSubmit newId a))) !! Book.id book = Some book'
    /\ Book.totalPages book' = Book.totalPages book
    /\ Book.currentPage book' = Book.totalPages book
    /\ Book.status book' = Completed.
Proof.
  intros Hvalid Hlt Hover.
  destruct (handleSessionSubmit_valid a newId book pages minutes Hvalid) as (Hbooks & _).
  destruct Hvalid as (_ & Hbook & _).
  destruct (booksById_lookup _ _ _ Hbook) as [Hid _].
  rewrite Hbooks, booksById_map by apply logUpdate_id.
  rewrite Hid, Hbook. cbn [fmap option_fmap option_map].
  eexists. split; [reflexivity|].
  unfold logUpdate. rewrite String.eqb_refl. cbn.
  unfold clamp. repeat split; try lia.
  destruct (Z.leb_spec (Book.totalPages book) (Book.currentPage book + pages)); [done|lia].
Qed.

Lemma log_beyond_remaining_completes_witness :
  exists book',
    booksById (books (state (handleSessionSubmit "s2"
      (setSessionForm (sampleSessionForm 20001 "50") appAt90)))) !! "b1" = Some book'
    /\ Book.totalPages book' = 100
    /\ Book.currentPage book' = 100
    /\ Book.status book' = Completed.
Proof.
  apply (log_beyond_remaining_completes
           (setSessionForm (sampleSessionForm 20001 "50") appAt90) "s2"
           (sampleBook 90 InProgress) 50 30).
  - unfold validSession. repeat split; try reflexivity; try lia. discriminate.
  - simpl. lia.
  - simpl. lia.
Defined.

(** ** C3: what is stored when the entry exceeds the remaining pages *)

(** C3.  The book has 10 pages left and 50 are entered: the session is
    stored with all 50. *)
Theorem log_stores_entered_pages_at_90_of_100 :
  Book.currentPage <$> booksById (books (state appAt90)) !! "b1" = Some 90
  /\ Book.totalPages <$> booksById (books (state appAt90)) !! "b1" = Some 100
  /\ map ReadingSession.pagesRead
       (List.filter (fun s => String.eqb (ReadingSession.id s) "s2")
          (sessions (state (applyOp appAt90 (LogSession (sampleSessionForm 20001 "50") "s2")))))
     = [50].
Proof. repeat split; reflexivity. Qed.

(** ** C9: a rejected form changes nothing but the error message *)

(** C9.  [handleBookSubmit] rejects a title or an author that is empty after
    trimming and a total that is not a positive number; [handleSessionSubmit]
    rejects an empty or unknown book id and pages or minutes that are not a
    positive number.  A rejected submission sets the error message and leaves
    the tracker state and both forms as they were. *)
Theorem rejected_submission_changes_nothing :
  (forall (a : App) (newId : string) (now : Z),
      trim (bf_title (bookForm a)) = "" \/ trim (bf_author (bookForm a)) = ""
      \/ notPositive (parseInt (bf_totalPages (bookForm a))) = true ->
      exists message, handleBookSubmit newId now a = setError (Some message) a)
  /\ (forall (a : App) (newId : string),
      sf_bookId (sessionForm a) = ""
      \/ booksById (books (state a)) !! sf_bookId (sessionForm a) = None
      \/ notPositive (parseInt (sf_pagesRead (sessionForm a))) = true
      \/ notPositive (parseInt (sf_minutes (sessionForm a))) = true ->
      exists message, handleSessionSubmit newId a = setError (Some message) a).
Proof.
  split.
  - intros a newId now H. unfold handleBookSubmit. cbn [setError bookForm state error sessionForm].
    destruct (isEmpty (trim (bf_title (bookForm a)))) eqn:Et; [by eexists|].
    destruct (isEmpty (trim (bf_author (bookForm a)))) eqn:Ea; [by eexists|].
    cbn [orb].
    destruct H as [H|[H|H]].
    + rewrite H in Et. discriminate.
    + rewrite H in Ea. discriminate.
    + destruct (parseInt (bf_totalPages (bookForm a))) as [total|]; [|by eexists].
      cbn in H. rewrite H. by eexists.
  - intros a newId H. unfold handleSessionSubmit.
    cbn [setError bookForm state error sessionForm].
    destruct (isEmpty (sf_bookId (sessionForm a))) eqn:Eb; [by eexists|].
    destruct (booksById (books (state a)) !! sf_bookId (sessionForm a)) as [book|] eqn:Ebook;
      [|by eexists].
    destruct (parseInt (sf_pagesRead (sessionForm a))) as [pages|]; [|by eexists].
    destruct (pages <=? 0) eqn:Ep; [by eexists|].
    destruct (parseInt (sf_minutes (sessionForm a))) as [minutes|]; [|by eexists].
    destruct (minutes <=? 0) eqn:Em; [by eexists|].
    destruct H as [H|[H|[H|H]]]; cbn in H; try congruence.
    rewrite H in Eb. discriminate.
Qed.

Lemma rejected_submission_changes_nothing_witness :
  (exists message,
      handleBookSubmit "b2" sampleNow (setBookForm (sampleBookForm "-5") appAt90)
      = setError (Some message) (setBookForm (sampleBookForm "-5") appAt90))
  /\ (exists message,
      handleSessionSubmit "s2" (setSessionForm (sampleSessionForm 20001 "0") appAt90)
      = setError (Some message) (setSessionForm (sampleSessionForm 20001 "0") appAt90)).
Proof.
  split.
  - apply (proj1 rejected_submission_changes_nothing). right. right. reflexivity.
  - apply (proj2 rejected_submission_changes_nothing). right. right. left. reflexivity.
Defined.

(** ** C10: a removed session leaves its book short of [Completed] *)

(** C10.  After [removeSession] of a session that is in the list, every book
    the session was logged on has status [NotStarted] or [InProgress]. *)
Theorem removeSession_demotes_book (a : App) (sessionId : string) (session : ReadingSession) :
  find (fun item => String.eqb (ReadingSession.id item) sessionId) (sessions (state a))
    = Some session ->
  forall book, In book (books (state (removeSession sessionId a))) ->
    Book.id book = ReadingSession.bookId session ->
    Book.status book = NotStarted \/ Book.status book = InProgress.
Proof.
  intros Hfind book Hin Hid. unfold removeSession in Hin. rewrite Hfind in Hin.
  cbn [setBooks state books] in Hin. apply in_map_iff in Hin as (item & Hitem & _).
  destruct (String.eqb_spec (Book.id item) (ReadingSession.bookId session)) as [_|Hne].
  - subst book. cbn. destruct (_ <=? 0); auto.
  - subst book. contradiction.
Qed.

(** The book is full, a session of 5 pages is logged on it, which leaves the
    page count at 100, and is then removed. *)
Lemma removeSession_demotes_book_witness :
  Book.status (sampleBook 95 InProgress) = NotStarted
  \/ Book.status (sampleBook 95 InProgress) = InProgress.
Proof.
  apply (removeSession_demotes_book
           (applyOp appAt100 (LogSession (sampleSessionForm 20001 "5") "s2")) "s2"
           {| ReadingSession.id := "s2"; ReadingSession.bookId := "b1";
              ReadingSession.date := IsoDate 20001; ReadingSession.pagesRead := 5;
              ReadingSession.minutes := 30; ReadingSession.note := None |}).
  - reflexivity.
  - left. reflexivity.
  - reflexivity.
Defined.

(** ** C1: logging a session and removing it again *)

Lemma find_insertSorted_new {A} (cmp : A -> A -> Z) (p : A -> bool) (x : A) (l : list A) :
  p x = true -> (forall y, In y l -> p y = false) ->
  find p (insertSorted cmp x l) = Some x.
Proof.
  intros Hx. induction l as [|y l IH]; intros Hl; simpl.
  - by rewrite Hx.
  - destruct (0 <? cmp x y); simpl.
    + rewrite (Hl y) by (by left). apply IH. intros z Hz. apply Hl. by right.
    + by rewrite Hx.
Qed.

Lemma find_sort_new {A} (cmp : A -> A -> Z) (p : A -> bool) (x : A) (l : list A) :
  p x = true -> (forall y, In y l -> p y = false) ->
  find p (sort cmp (x :: l)) = Some x.
Proof.
  intros Hx Hl. simpl. apply find_insertSorted_new; [done|].
  intros y Hy. apply Hl. eapply Permutation_in; [apply sort_perm|done].
Qed.

Lemma not_in_sessionIds (a : App) (newId : string) :
  newId ∉ sessionIds a ->
  forall y, In y (sessions (state a)) -> String.eqb (ReadingSession.id y) newId = false.
Proof.
  intros Hfresh y Hy. apply String.eqb_neq. intros Heq. apply Hfresh.
  apply list_elem_of_In. unfold sessionIds. rewrite <- Heq. by apply in_map.
Qed.

(** The session just logged is the one [removeSession] finds under its id. *)
Lemma find_logged_session (a : App) (newId : string) (book : Book) (pages minutes : Z) :
  validSession a book pages minutes -> newId ∉ sessionIds a ->
  find (fun item => String.eqb (ReadingSession.id item) newId)
       (sessions (state (handleSessionSubmit newId a)))
  = Some (loggedSession a newId book pages minutes).
Proof.
  intros Hvalid Hfresh.
  destruct (handleSessionSubmit_valid a newId book pages minutes Hvalid) as (_ & -> & _).
  apply find_sort_new.
  - cbn. apply String.eqb_refl.
  - by apply not_in_sessionIds.
Qed.

Lemma unlogUpdate_id (session : ReadingSession) (item : Book) :
  Book.id (unlogUpdate session item) = Book.id item.
Proof. unfold unlogUpdate. by destruct (String.eqb _ _). Qed.

(** The book named by the form after the session is logged and removed. *)
Lemma log_then_remove_book (a : App) (newId : string) (book : Book) (pages minutes : Z) :
  validSession a book pages minutes -> newId ∉ sessionIds a ->
  booksById (books (state (removeSession newId (handleSessionSubmit newId a))))
    !! Book.id book
  = Some (unlogOnBook (loggedSession a newId book pages minutes) (logOnBook pages book)).
Proof.
  intros Hvalid Hfresh. unfold removeSession.
  rewrite (find_logged_session a newId book pages minutes Hvalid Hfresh).
  cbn [setBooks state books].
  destruct (handleSessionSubmit_valid a newId book pages minutes Hvalid) as (-> & _).
  destruct Hvalid as (_ & Hbook & _).
  destruct (booksById_lookup _ _ _ Hbook) as [Hid _].
  change (map _ (map (logUpdate book pages) (books (state a))))
    with (map (unlogUpdate (loggedSession a newId book pages minutes))
              (map (logUpdate book pages) (books (state a)))).
  rewrite !booksById_map by (apply unlogUpdate_id || apply logUpdate_id).
  rewrite Hid, Hbook. cbn [fmap option_fmap option_map].
  unfold logUpdate, unlogUpdate. rewrite String.eqb_refl. cbn [logOnBook Book.id loggedSession ReadingSession.bookId].
  by rewrite String.eqb_refl.
Qed.

(** C1, as stated, fails on a book that is already full: the session leaves
    the page count at [totalPages] and its removal takes the stored pages
    off. *)
Lemma log_remove_round_trip_fails_on_full_book :
  ~ (forall (a : App) (newId : string) (book : Book) (pages minutes : Z),
        validSession a book pages minutes -> newId ∉ sessionIds a ->
        restoredAfterLogAndRemove a newId book).
Proof.
  intros H.
  destruct (H (setSessionForm (sampleSessionForm 20001 "5") appAt100) "s2"
              (sampleBook 100 Completed) 5 30) as (book' & Hbook' & Hpage).
  - unfold validSession. repeat split; try reflexivity; try lia. discriminate.
  - compute_done.
  - assert (Some book' = Some (sampleBook 95 InProgress)) as Heq
      by (rewrite <- Hbook'; reflexivity).
    inversion Heq; subst. discriminate Hpage.
Qed.

(** C1, amended.  When the book has at most [maxSafeInteger] pages and the
    pages of a valid session fit in what remains of it
    ([currentPage + pages <= totalPages], with [currentPage] not negative),
    removing the session that was logged puts the book back at the page
    count it had. *)
Theorem log_remove_round_trip_when_pages_fit
    (a : App) (newId : string) (book : Book) (pages minutes : Z) :
  validSession a book pages minutes -> newId ∉ sessionIds a ->
  0 <= Book.currentPage book ->
  Book.currentPage book + pages <= Book.totalPages book ->
  Book.totalPages book <= maxSafeInteger ->
  restoredAfterLogAndRemove a newId book.
Proof.
  intros Hvalid Hfresh H0 Hfit Hsafe. unfold restoredAfterLogAndRemove.
  rewrite (log_then_remove_book a newId book pages minutes Hvalid Hfresh).
  eexists. split; [reflexivity|].
  destruct Hvalid as (_ & _ & _ & Hpos & _).
  cbn. unfold clamp. lia.
Qed.

Lemma log_remove_round_trip_when_pages_fit_witness :
  restoredAfterLogAndRemove (setSessionForm (sampleSessionForm 20001 "10") appAt90) "s2"
    (sampleBook 90 InProgress).
Proof.
  apply (log_remove_round_trip_when_pages_fit
           (setSessionForm (sampleSessionForm 20001 "10") appAt90) "s2"
           (sampleBook 90 InProgress) 10 30).
  - unfold validSession. repeat split; try reflexivity; try lia. discriminate.
  - compute_done.
  - simpl. lia.
  - simpl. lia.
  - vm_compute. discriminate.
Defined.

(** ** C2: the status of a book and its page counts *)

Lemma handleBookSubmit_cases (a : App) (newId : string) (now : Z) :
  (exists message, handleBookSubmit newId now a = setError (Some message) a)
  \/ exists newBook,
       Book.id newBook = newId /\ 0 < Book.totalPages newBook
       /\ Book.currentPage newBook = 0 /\ Book.status newBook = NotStarted
       /\ books (state (handleBookSubmit newId now a)) = newBook :: books (state a)
       /\ sessions (state (handleBookSubmit newId now a)) = sessions (state a).
Proof.
  unfold handleBookSubmit. cbn [setError bookForm state error sessionForm].
  destruct (isEmpty (trim (bf_title (bookForm a))) || isEmpty (trim (bf_author (bookForm a))));
    [left; by eexists|].
  destruct (parseInt (bf_totalPages (bookForm a))) as [total|]; [|left; by eexists].
  destruct (Z.leb_spec total 0); [left; by eexists|].
  right. eexists. cbn. repeat split; done.
Qed.

Lemma handleSessionSubmit_cases (a : App) (newId : string) :
  (exists message, handleSessionSubmit newId a = setError (Some message) a)
  \/ exists book pages minutes, validSession a book pages minutes.
Proof.
  destruct (sf_bookId (sessionForm a)) as [|c rest] eqn:Eid.
  { left. unfold handleSessionSubmit. cbn [setError sessionForm]. rewrite Eid. by eexists. }
  destruct (booksById (books (state a)) !! sf_bookId (sessionForm a)) as [book|] eqn:Ebook.
  2: { left. unfold handleSessionSubmit. cbn [setError sessionForm state].
       rewrite Ebook, Eid. by eexists. }
  destruct (parseInt (sf_pagesRead (sessionForm a))) as [pages|] eqn:Ep.
  2: { left. unfold handleSessionSubmit. cbn [setError sessionForm state].
       rewrite Ebook, Eid, Ep. by eexists. }
  destruct (Z.leb_spec pages 0) as [Hp|Hp].
  { left. unfold handleSessionSubmit. cbn [setError sessionForm state].
    rewrite Ebook, Eid, Ep. cbn [isEmpty]. assert ((pages <=? 0) = true) as -> by lia.
    by eexists. }
  destruct (parseInt (sf_minutes (sessionForm a))) as [minutes|] eqn:Em.
  2: { left. unfold handleSessionSubmit. cbn [setError sessionForm state].
       rewrite Ebook, Eid, Ep, Em. cbn [isEmpty].
       assert ((pages <=? 0) = false) as -> by lia. by eexists. }
  destruct (Z.leb_spec minutes 0) as [Hm|Hm].
  { left. unfold handleSessionSubmit. cbn [setError sessionForm state].
    rewrite Ebook, Eid, Ep, Em. cbn [isEmpty].
    assert ((pages <=? 0) = false) as -> by lia.
    assert ((minutes <=? 0) = true) as -> by lia. by eexists. }
  right. exists book, pages, minutes. unfold validSession.
  repeat split; try done. by rewrite Eid.
Qed.

Lemma logOnBook_ok (pages : Z) (item : Book) : 1 <= pages -> bookOk item -> bookOk (logOnBook pages item).
Proof.
  intros Hp (Ht & Hc & _). unfold bookOk, statusAgrees, logOnBook, clamp. cbn.
  destruct (Z.leb_spec (Book.totalPages item) (Book.currentPage item + pages));
    repeat split; intros; try lia; try done.
Qed.

Lemma unlogOnBook_ok (session : ReadingSession) (item : Book) :
  sessionOk session -> bookOk item -> bookOk (unlogOnBook session item).
Proof.
  intros Hp (Ht & Hc & _). unfold sessionOk in Hp.
  unfold bookOk, statusAgrees, unlogOnBook, clamp. cbn.
  destruct (Z.leb_spec (Book.currentPage item - ReadingSession.pagesRead session) 0);
    repeat split; intros; try lia; try done.
Qed.

Lemma progressOnBook_ok (value : Z) (book : Book) :
  0 <= value -> bookOk book -> bookOk (progressOnBook value book).
Proof.
  intros Hv (Ht & Hc & _). unfold bookOk, statusAgrees, progressOnBook, clamp. cbn.
  destruct (Z.leb_spec (Book.totalPages book) value);
    [|destruct (Z.eqb_spec value 0)]; repeat split; intros; try lia; try done.
Qed.

Lemma Forall_map_if {A} (P : A -> Prop) (c : A -> bool) (f : A -> A) (l : list A) :
  (forall x, P x -> P (f x)) -> Forall P l -> Forall P (map (fun x => if c x then f x else x) l).
Proof.
  intros Hf Hl. apply Forall_map. eapply Forall_impl; [exact Hl|].
  intros x Hx. cbn. destruct (c x); auto.
Qed.

Lemma Forall_filter_keep {A} (P : A -> Prop) (c : A -> bool) (l : list A) :
  Forall P l -> Forall P (List.filter c l).
Proof.
  intros Hl. apply List.Forall_forall. intros x Hx. apply filter_In in Hx as [Hx _].
  revert x Hx. by apply List.Forall_forall.
Qed.

Lemma Forall_sort {A} (P : A -> Prop) (cmp : A -> A -> Z) (l : list A) :
  Forall P l -> Forall P (sort cmp l).
Proof.
  intros Hl. apply List.Forall_forall. intros x Hx.
  eapply List.Forall_forall; [exact Hl|]. eapply Permutation_in; [apply sort_perm|done].
Qed.

Lemma stateOk_step (a : App) (o : Op) :
  progressNotNegative a o = true -> stateOk a -> stateOk (applyOp a o).
Proof.
  intros Hok [Hb Hs]. unfold stateOk.
  destruct o as [form newId now|form newId|sessionId|bookId newPage]; cbn [applyOp].
  - destruct (handleBookSubmit_cases (setBookForm form a) newId now)
      as [[message ->]|(newBook & _ & Ht & Hc & Hst & Hbooks & Hsess)]; [by split|].
    split; [rewrite Hbooks|by rewrite Hsess].
    constructor; [|done]. unfold bookOk, statusAgrees. rewrite Hc, Hst.
    repeat split; intros; try lia; try done.
  - destruct (handleSessionSubmit_cases (setSessionForm form a) newId)
      as [[message ->]|(book & pages & minutes & Hvalid)]; [by split|].
    destruct (handleSessionSubmit_valid _ newId _ _ _ Hvalid) as (-> & -> & _).
    destruct Hvalid as (_ & _ & _ & Hp & _). cbn [setSessionForm state].
    split.
    + apply Forall_map_if; [|done]. intros x. apply logOnBook_ok. lia.
    + apply Forall_sort. constructor; [|done]. unfold sessionOk. cbn. lia.
  - unfold removeSession.
    destruct (find _ (sessions (state a))) as [session|] eqn:Hfind; [|by split].
    apply find_some in Hfind as [Hin _].
    assert (sessionOk session) as Hp by (revert session Hin; by apply List.Forall_forall).
    split; cbn.
    + apply Forall_map_if; [|done]. intros x. by apply unlogOnBook_ok.
    + by apply Forall_filter_keep.
  - split; cbn; [|done]. cbn in Hok.
    apply Forall_map_if; [|done]. intros x. apply progressOnBook_ok. lia.
Qed.

Lemma stateOk_run (ops : list Op) (a : App) :
  admissible progressNotNegative a ops = true -> stateOk a -> stateOk (run ops a).
Proof.
  revert a. induction ops as [|o ops IH]; intros a Hadm Hok; [done|].
  cbn in Hadm. apply andb_true_iff in Hadm as [Ho Hrest].
  cbn. apply IH; [done|]. by apply stateOk_step.
Qed.

(** C2, as stated, fails for a negative page: [updateBookProgress] stores
    page 0 and the status [InProgress]. *)
Lemma status_disagrees_after_negative_progress :
  ~ (forall (ops : list Op) (now : Z) (book : Book),
        In book (books (state (run ops (initialApp now)))) -> statusAgrees book).
Proof.
  intros H.
  destruct (H [AddBook (sampleBookForm "100") "b1" sampleNow; SetBookProgress "b1" (-1)]
              sampleNow (sampleBook 0 InProgress)) as (_ & Hns & _).
  - left. reflexivity.
  - cbn in Hns. destruct Hns as [_ Hns]. discriminate (Hns eq_refl).
Qed.

Lemma admissible_both (f g : App -> Op -> bool) (a : App) (ops : list Op) :
  admissible (fun a o => f a o && g a o) a ops = true ->
  admissible f a ops = true /\ admissible g a ops = true.
Proof.
  revert a. induction ops as [|o ops IH]; intros a H; [done|].
  cbn [admissible] in *. apply andb_true_iff in H as [Ho Hrest].
  apply andb_true_iff in Ho as [Hf Hg]. destruct (IH _ Hrest) as [-> ->].
  by rewrite Hf, Hg.
Qed.

(** The total of an accepted book is the number read from the form. *)
Lemma handleBookSubmit_total (a : App) (newId : string) (now : Z) :
  books (state (handleBookSubmit newId now a)) = books (state a)
  \/ exists newBook,
       books (state (handleBookSubmit newId now a)) = newBook :: books (state a)
       /\ parseInt (bf_totalPages (bookForm a)) = Some (Book.totalPages newBook).
Proof.
  unfold handleBookSubmit. cbn [setError bookForm state error sessionForm].
  destruct (isEmpty (trim (bf_title (bookForm a))) || isEmpty (trim (bf_author (bookForm a))));
    [by left|].
  destruct (parseInt (bf_totalPages (bookForm a))) as [total|]; [|by left].
  destruct (Z.leb_spec total 0); [by left|].
  right. eexists. split; reflexivity.
Qed.

Lemma totalsSafe_map (f : Book -> Book) (bs : list Book) :
  (forall b, Book.totalPages (f b) = Book.totalPages b) ->
  Forall (fun b => Book.totalPages b <= maxSafeInteger) bs ->
  Forall (fun b => Book.totalPages b <= maxSafeInteger) (map f bs).
Proof.
  intros Hf Hbs. apply Forall_map. eapply Forall_impl; [exact Hbs|].
  intros b Hb. cbn. by rewrite Hf.
Qed.

Lemma totalsSafe_step (a : App) (o : Op) :
  safeEntries a o = true -> totalsSafe a -> totalsSafe (applyOp a o).
Proof.
  intros Hok Hsafe. unfold totalsSafe in *.
  destruct o as [form newId now|form newId|sessionId|bookId newPage]; cbn [applyOp].
  - destruct (handleBookSubmit_total (setBookForm form a) newId now)
      as [->|(newBook & -> & Htotal)]; [done|].
    constructor; [|done]. cbn in Hok, Htotal. rewrite Htotal in Hok. cbn in Hok. lia.
  - destruct (handleSessionSubmit_cases (setSessionForm form a) newId)
      as [[message ->]|(book & pages & minutes & Hvalid)]; [done|].
    destruct (handleSessionSubmit_valid _ newId _ _ _ Hvalid) as (-> & _).
    apply totalsSafe_map; [|done]. intros b. unfold logUpdate. by destruct (String.eqb _ _).
  - unfold removeSession.
    destruct (find _ (sessions (state a))) as [session|]; [|done].
    cbn [setBooks state books].
    apply totalsSafe_map; [|done]. intros b. by destruct (String.eqb _ _).
  - cbn [updateBookProgress setBooks state books].
    apply totalsSafe_map; [|done]. intros b. by destruct (String.eqb _ _).
Qed.

Lemma totalsSafe_run (ops : list Op) (a : App) :
  admissible safeEntries a ops = true -> totalsSafe a -> totalsSafe (run ops a).
Proof.
  revert a. induction ops as [|o ops IH]; intros a Hadm Hok; [done|].
  cbn in Hadm. apply andb_true_iff in Hadm as [Ho Hrest].
  cbn. apply IH; [done|]. by apply totalsSafe_step.
Qed.

(** C2, amended.  In every state reached from the initial one by adding
    books, logging and removing sessions, and setting a book's progress to a
    page that is not negative, with no number entered above
    [maxSafeInteger], every book has status [Completed] exactly when
    [currentPage >= totalPages], [NotStarted] exactly when [currentPage = 0],
    and [InProgress] exactly in the remaining case; its page count lies
    between 0 and its total, and its total is at most [maxSafeInteger]. *)
Theorem status_agrees_with_pages (ops : list Op) (now : Z) (book : Book) :
  admissible sliderAndSafeEntries (initialApp now) ops = true ->
  In book (books (state (run ops (initialApp now)))) ->
  statusAgrees book
  /\ 0 <= Book.currentPage book <= Book.totalPages book
  /\ Book.totalPages book <= maxSafeInteger.
Proof.
  intros Hadm Hin. apply admissible_both in Hadm as [Hslider Hsafe].
  assert (stateOk (run ops (initialApp now))) as [Hb _].
  { apply stateOk_run; [done|]. split; constructor. }
  assert (totalsSafe (run ops (initialApp now))) as Ht.
  { apply totalsSafe_run; [done|]. constructor. }
  destruct (proj1 (List.Forall_forall _ _) Hb book Hin) as (_ & Hrange & Hst).
  pose proof (proj1 (List.Forall_forall _ _) Ht book Hin) as Htotal.
  done.
Qed.

Lemma status_agrees_with_pages_witness :
  statusAgrees (sampleBook 40 InProgress)
  /\ 0 <= Book.currentPage (sampleBook 40 InProgress) <= Book.totalPages (sampleBook 40 InProgress)
  /\ Book.totalPages (sampleBook 40 InProgress) <= maxSafeInteger.
Proof.
  apply (status_agrees_with_pages
           [AddBook (sampleBookForm "100") "b1" sampleNow;
            LogSession (sampleSessionForm 20000 "90") "s1";
            SetBookProgress "b1" 100;
            LogSession (sampleSessionForm 20001 "5") "s2";
            RemoveSession "s1";
            SetBookProgress "b1" 40]
           sampleNow).
  - reflexivity.
  - left. reflexivity.
Defined.

(** ** C4: the page count and the sum of the session pages *)

Lemma fold_add_acc (l : list Z) (acc : Z) :
  fold_left (fun acc current => acc + current) l acc
  = acc + fold_left (fun acc current => acc + current) l 0.
Proof.
  revert acc. induction l as [|x l IH]; intros acc; simpl; [lia|].
  rewrite (IH (acc + x)), (IH (0 + x)). lia.
Qed.

Lemma sum_cons (x : Z) (l : list Z) : sum (x :: l) = x + sum l.
Proof. unfold sum. simpl. apply fold_add_acc. Qed.

Lemma pagesLoggedOn_cons (k : string) (s : ReadingSession) (ss : list ReadingSession) :
  pagesLoggedOn k (s :: ss)
  = (if String.eqb (ReadingSession.bookId s) k then ReadingSession.pagesRead s else 0)
    + pagesLoggedOn k ss.
Proof.
  unfold pagesLoggedOn. simpl. destruct (String.eqb _ k); simpl; [apply sum_cons|lia].
Qed.

Lemma pagesLoggedOn_perm (k : string) (l l' : list ReadingSession) :
  Permutation l l' -> pagesLoggedOn k l = pagesLoggedOn k l'.
Proof.
  induction 1; rewrite ?pagesLoggedOn_cons; lia.
Qed.

Lemma pagesLoggedOn_nonneg (k : string) (ss : list ReadingSession) :
  Forall sessionOk ss -> 0 <= pagesLoggedOn k ss.
Proof.
  induction 1 as [|s ss Hs _ IH]; [done|].
  rewrite pagesLoggedOn_cons. unfold sessionOk in Hs. destruct (String.eqb _ k); lia.
Qed.

Lemma pagesLoggedOn_unreferenced (k : string) (ss : list ReadingSession) :
  (forall s, In s ss -> ReadingSession.bookId s <> k) -> pagesLoggedOn k ss = 0.
Proof.
  induction ss as [|s ss IH]; intros H; [done|].
  rewrite pagesLoggedOn_cons, IH by (intros; apply H; by right).
  destruct (String.eqb_spec (ReadingSession.bookId s) k) as [Heq|]; [|done].
  exfalso. apply (H s); [by left|done].
Qed.

Lemma filter_none_removed (sid : string) (ss : list ReadingSession) :
  ~ In sid (map ReadingSession.id ss) ->
  List.filter (fun item => negb (String.eqb (ReadingSession.id item) sid)) ss = ss.
Proof.
  induction ss as [|x ss IH]; intros Hnot; simpl; [done|].
  destruct (String.eqb_spec (ReadingSession.id x) sid) as [Heq|Hne]; simpl.
  - exfalso. apply Hnot. left. done.
  - f_equal. apply IH. intros Hin. apply Hnot. by right.
Qed.

(** Removing the one session with a given id takes its pages off the sum of
    its book and off no other. *)
Lemma pagesLoggedOn_removed (k : string) (s : ReadingSession) (ss : list ReadingSession) :
  List.NoDup (map ReadingSession.id ss) -> In s ss ->
  pagesLoggedOn k
    (List.filter (fun item => negb (String.eqb (ReadingSession.id item) (ReadingSession.id s))) ss)
  = pagesLoggedOn k ss
    - (if String.eqb (ReadingSession.bookId s) k then ReadingSession.pagesRead s else 0).
Proof.
  induction ss as [|x ss IH]; intros Hnd Hin; [done|].
  simpl in Hnd. apply List.NoDup_cons_iff in Hnd as [Hx Hnd].
  simpl. destruct (String.eqb_spec (ReadingSession.id x) (ReadingSession.id s)) as [Heq|Hne]; simpl.
  - assert (x = s) as ->.
    { destruct Hin as [|Hin]; [done|]. exfalso. apply Hx. rewrite Heq. by apply in_map. }
    rewrite filter_none_removed by done. rewrite pagesLoggedOn_cons. lia.
  - destruct Hin as [->|Hin]; [done|].
    rewrite !pagesLoggedOn_cons, IH by done. lia.
Qed.

Lemma NoDup_map_filter {A B} (f : A -> B) (c : A -> bool) (l : list A) :
  List.NoDup (map f l) -> List.NoDup (map f (List.filter c l)).
Proof.
  induction l as [|x l IH]; intros Hnd; simpl; [done|].
  simpl in Hnd. apply List.NoDup_cons_iff in Hnd as [Hx Hnd].
  destruct (c x); simpl; [|by apply IH].
  apply List.NoDup_cons; [|by apply IH].
  intros Hin. apply Hx. apply in_map_iff in Hin as (y & Hy & Hin).
  apply filter_In in Hin as [Hin _]. apply in_map_iff. eauto.
Qed.

Lemma same_id_same_book (bs : list Book) (x y : Book) :
  List.NoDup (map Book.id bs) -> In x bs -> In y bs -> Book.id x = Book.id y -> x = y.
Proof.
  induction bs as [|b bs IH]; intros Hnd Hx Hy Hid; [done|].
  simpl in Hnd. apply List.NoDup_cons_iff in Hnd as [Hb Hnd].
  destruct Hx as [->|Hx], Hy as [->|Hy]; try done.
  - exfalso. apply Hb. rewrite Hid. by apply in_map.
  - exfalso. apply Hb. rewrite <- Hid. by apply in_map.
  - by apply IH.
Qed.

Lemma map_id_preserved (f : Book -> Book) (bs : list Book) :
  (forall b, Book.id (f b) = Book.id b) -> map Book.id (map f bs) = map Book.id bs.
Proof. intros Hid. rewrite map_map. apply map_ext. done. Qed.

Lemma ledgerOk_add (a : App) (form : BookFormState) (newId : string) (now : Z) :
  ~ In newId (bookIds a) -> ledgerOk a -> ledgerOk (applyOp a (AddBook form newId now)).
Proof.
  intros Hfresh (Hbn & Hsn & Hso & Href & Hb). cbn [applyOp].
  destruct (handleBookSubmit_cases (setBookForm form a) newId now)
    as [[message ->]|(newBook & Hid & Ht & Hc & _ & Hbooks & Hsess)]; [done|].
  cbn [setBookForm state] in Hbooks, Hsess.
  unfold ledgerOk, bookIds, sessionIds, pageIsSessionSum. rewrite Hbooks, Hsess.
  repeat split; try done.
  - simpl. apply List.NoDup_cons; [by rewrite Hid|done].
  - eapply Forall_impl; [exact Href|]. intros s Hs. by right.
  - constructor; [|done]. rewrite Hc.
    rewrite pagesLoggedOn_unreferenced; [lia|].
    intros s Hs Heq. apply Hfresh. rewrite <- Hid, <- Heq.
    exact (proj1 (List.Forall_forall _ _) Href s Hs).
Qed.

Lemma ledgerOk_log (a : App) (form : SessionFormState) (newId : string) :
  ~ In newId (sessionIds a) -> pagesFit a form = true ->
  ledgerOk a -> ledgerOk (applyOp a (LogSession form newId)).
Proof.
  intros Hfresh Hfit (Hbn & Hsn & Hso & Href & Hb). cbn [applyOp].
  destruct (handleSessionSubmit_cases (setSessionForm form a) newId)
    as [[message ->]|(book & pages & minutes & Hvalid)]; [done|].
  destruct (handleSessionSubmit_valid _ newId _ _ _ Hvalid) as (Hbooks & Hsess & _).
  destruct Hvalid as (_ & Hbook & Hpages & Hpos & _).
  cbn [setSessionForm state sessionForm] in Hbooks, Hsess, Hbook, Hpages.
  unfold pagesFit in Hfit. rewrite Hbook, Hpages in Hfit.
  destruct (booksById_lookup _ _ _ Hbook) as [_ Hin].
  set (new := loggedSession (setSessionForm form a) newId book pages minutes) in *.
  assert (Permutation (sessions (state (handleSessionSubmit newId (setSessionForm form a))))
                      (new :: sessions (state a))) as Hperm
    by (rewrite Hsess; apply sort_perm).
  unfold ledgerOk, bookIds, sessionIds, pageIsSessionSum.
  rewrite Hbooks, map_id_preserved by apply logUpdate_id.
  repeat split; try done.
  - eapply Permutation_NoDup; [symmetry; apply Permutation_map; exact Hperm|].
    simpl. by apply List.NoDup_cons.
  - rewrite Hsess. apply Forall_sort. constructor; [|done]. unfold sessionOk. cbn. lia.
  - rewrite Hsess. apply Forall_sort. constructor; [|done]. cbn. by apply in_map.
  - apply Forall_map. apply List.Forall_forall. intros item Hitem.
    destruct (proj1 (List.Forall_forall _ _) Hb item Hitem) as [Hrange Hsum].
    unfold pageIsSessionSum in Hsum.
    rewrite logUpdate_id, (pagesLoggedOn_perm _ _ _ Hperm), pagesLoggedOn_cons.
    unfold logUpdate. subst new. cbn [loggedSession ReadingSession.bookId ReadingSession.pagesRead].
    rewrite (String.eqb_sym (Book.id book)).
    destruct (String.eqb_spec (Book.id item) (Book.id book)) as [Heq|Hne]; [|lia].
    assert (item = book) as -> by (by apply (same_id_same_book (books (state a)))).
    cbn. unfold clamp. lia.
Qed.

Lemma ledgerOk_remove (a : App) (sessionId : string) :
  ledgerOk a -> ledgerOk (applyOp a (RemoveSession sessionId)).
Proof.
  intros (Hbn & Hsn & Hso & Href & Hb). cbn [applyOp]. unfold removeSession.
  destruct (find _ (sessions (state a))) as [session|] eqn:Hfind; [|done].
  apply find_some in Hfind as [Hin Hid]. apply String.eqb_eq in Hid. subst sessionId.
  unfold ledgerOk, bookIds, sessionIds, pageIsSessionSum. cbn [setBooks state books sessions].
  change (map _ (books (state a))) with (map (unlogUpdate session) (books (state a))).
  rewrite map_id_preserved by apply unlogUpdate_id.
  repeat split; try done.
  - by apply NoDup_map_filter.
  - by apply Forall_filter_keep.
  - by apply Forall_filter_keep.
  - apply Forall_map. apply List.Forall_forall. intros item Hitem.
    destruct (proj1 (List.Forall_forall _ _) Hb item Hitem) as [Hrange Hsum].
    unfold pageIsSessionSum in Hsum.
    assert (sessionOk session) as Hp by exact (proj1 (List.Forall_forall _ _) Hso _ Hin).
    unfold sessionOk in Hp.
    pose proof (pagesLoggedOn_nonneg (Book.id item) _
                  (Forall_filter_keep _
                     (fun x => negb (String.eqb (ReadingSession.id x) (ReadingSession.id session)))
                     _ Hso)) as Hnonneg.
    rewrite unlogUpdate_id.
    rewrite (pagesLoggedOn_removed _ _ _ Hsn Hin) in *.
    unfold unlogUpdate. rewrite (String.eqb_sym (ReadingSession.bookId session)) in *.
    destruct (String.eqb (Book.id item) (ReadingSession.bookId session)); [|lia].
    cbn. unfold clamp. lia.
Qed.

Lemma ledgerOk_run (ops : list Op) (a : App) :
  admissible fittingSessionOpsOnly a ops = true -> ledgerOk a -> ledgerOk (run ops a).
Proof.
  revert a. induction ops as [|o ops IH]; intros a Hadm Hok; [done|].
  cbn [admissible] in Hadm. apply andb_true_iff in Hadm as [Ho Hrest].
  cbn. apply IH; [done|].
  unfold fittingSessionOpsOnly, sessionOpsOnly in Ho.
  destruct o as [form newId now|form newId|sessionId|bookId newPage].
  - apply andb_true_iff in Ho as [Hfresh _]. apply bool_decide_eq_true in Hfresh.
    apply ledgerOk_add; [|done]. by rewrite <- list_elem_of_In.
  - apply andb_true_iff in Ho as [Hfresh Hfit]. apply bool_decide_eq_true in Hfresh.
    apply ledgerOk_log; [|done|done]. by rewrite <- list_elem_of_In.
  - by apply ledgerOk_remove.
  - discriminate Ho.
Qed.

(** C4, as stated, fails once a session is logged on a book that is already
    full: the page count stays at [totalPages] and the sum grows. *)
Lemma page_count_differs_from_session_sum :
  ~ (forall (ops : list Op) (now : Z) (book : Book),
        admissible sessionOpsOnly (initialApp now) ops = true ->
        In book (books (state (run ops (initialApp now)))) ->
        pageIsSessionSum (run ops (initialApp now)) book).
Proof.
  intros H.
  specialize (H [AddBook (sampleBookForm "100") "b1" sampleNow;
                 LogSession (sampleSessionForm 20000 "100") "s1";
                 LogSession (sampleSessionForm 20001 "5") "s2"]
                sampleNow (sampleBook 100 Completed) eq_refl (or_introl eq_refl)).
  vm_compute in H. discriminate H.
Qed.

(** C4, amended.  In every state reached from the initial one by adding
    books and by logging and removing sessions, where ids are not reused, no
    number entered is above [maxSafeInteger] and no session is logged with
    more pages than remain in its book, the page count of every book is the
    sum of the pages of its sessions, and it lies within the book, which has
    at most [maxSafeInteger] pages. *)
Theorem page_count_is_session_sum (ops : list Op) (now : Z) (book : Book) :
  admissible fittingAndSafe (initialApp now) ops = true ->
  In book (books (state (run ops (initialApp now)))) ->
  pageIsSessionSum (run ops (initialApp now)) book
  /\ 0 <= Book.currentPage book <= Book.totalPages book
  /\ Book.totalPages book <= maxSafeInteger.
Proof.
  intros Hadm Hin. apply admissible_both in Hadm as [Hfit Hsafe].
  assert (ledgerOk (run ops (initialApp now))) as (_ & _ & _ & _ & Hb).
  { apply ledgerOk_run; [done|]. repeat split; constructor. }
  assert (totalsSafe (run ops (initialApp now))) as Ht.
  { apply totalsSafe_run; [done|]. constructor. }
  destruct (proj1 (List.Forall_forall _ _) Hb book Hin) as [Hrange Hsum].
  pose proof (proj1 (List.Forall_forall _ _) Ht book Hin) as Htotal.
  done.
Qed.

Lemma page_count_is_session_sum_witness :
  pageIsSessionSum
    (run [AddBook (sampleBookForm "100") "b1" sampleNow;
          LogSession (sampleSessionForm 20000 "60") "s1";
          LogSession (sampleSessionForm 20001 "40") "s2";
          RemoveSession "s1"] (initialApp sampleNow))
    (sampleBook 40 InProgress)
  /\ 0 <= Book.currentPage (sampleBook 40 InProgress) <= Book.totalPages (sampleBook 40 InProgress)
  /\ Book.totalPages (sampleBook 40 InProgress) <= maxSafeInteger.
Proof.
  apply (page_count_is_session_sum
           [AddBook (sampleBookForm "100") "b1" sampleNow;
            LogSession (sampleSessionForm 20000 "60") "s1";
            LogSession (sampleSessionForm 20001 "40") "s2";
            RemoveSession "s1"] sampleNow).
  - vm_compute. reflexivity.
  - left. reflexivity.
Defined.

(** ** C5: the sessions of the week *)

Lemma weekStart_local_midnight (now tz : Z) :
  weekStart now tz = (localToday now tz - 6) * msPerDay - tz.
Proof.
  unfold weekStart, localToday.
  replace (now + tz - 6 * msPerDay) with (now + tz + (-6) * msPerDay) by lia.
  rewrite Z.div_add by (unfold msPerDay; lia). lia.
Qed.

Lemma onOrAfter_weekStart (now tz : Z) (session : ReadingSession) :
  0 <= tz < msPerDay ->
  onOrAfter (weekStart now tz) session = datedFrom (localToday now tz - 6) session.
Proof.
  intros Htz. rewrite weekStart_local_midnight. unfold onOrAfter, datedFrom, getTime.
  destruct (ReadingSession.date session) as [d|raw]; [|done].
  unfold msPerDay in *.
  destruct (Z.leb_spec (localToday now tz - 6) d); lia.
Qed.

(** C5, as stated, fails for a session dated after today: it is counted. *)
Lemma week_sums_count_future_sessions :
  ~ (forall (now tz : Z) (ss : list ReadingSession),
        minutesThisWeek now tz ss
        = sum (map ReadingSession.minutes (List.filter (inWeekWindow (localToday now tz)) ss))
        /\ pagesThisWeek now tz ss
           = sum (map ReadingSession.pagesRead
                      (List.filter (inWeekWindow (localToday now tz)) ss))).
Proof.
  intros H.
  destruct (H sampleNow 0 [sampleSession "s1" 20001 12 30]) as [Hm _].
  vm_compute in Hm. discriminate Hm.
Qed.

(** C5, amended.  With local time at or ahead of UTC, [minutesThisWeek] and
    [pagesThisWeek] are the sums of the minutes and of the pages over exactly
    the sessions dated six days before today or later; a session dated
    earlier, or with no valid date, adds nothing, and one dated after today
    is counted. *)
Theorem week_sums_cover_sessions_from_six_days_ago
    (now tz : Z) (ss : list ReadingSession) :
  0 <= tz < msPerDay ->
  sessionsThisWeek now tz ss = List.filter (datedFrom (localToday now tz - 6)) ss
  /\ minutesThisWeek now tz ss
     = sum (map ReadingSession.minutes (List.filter (datedFrom (localToday now tz - 6)) ss))
  /\ pagesThisWeek now tz ss
     = sum (map ReadingSession.pagesRead (List.filter (datedFrom (localToday now tz - 6)) ss)).
Proof.
  intros Htz.
  assert (sessionsThisWeek now tz ss = List.filter (datedFrom (localToday now tz - 6)) ss) as Heq.
  { unfold sessionsThisWeek. apply filter_ext. intros s. by apply onOrAfter_weekStart. }
  unfold minutesThisWeek, pagesThisWeek. by rewrite Heq.
Qed.

(** Sessions seven and six days ago, today and tomorrow, at UTC+2. *)
Lemma week_sums_cover_sessions_from_six_days_ago_witness :
  let ss := [sampleSession "s4" 20001 7 8; sampleSession "s3" 20000 5 10;
             sampleSession "s2" 19994 3 20; sampleSession "s1" 19993 1 40] in
  sessionsThisWeek sampleNow 7200000 ss = List.filter (datedFrom (20000 - 6)) ss
  /\ minutesThisWeek sampleNow 7200000 ss
     = sum (map ReadingSession.minutes (List.filter (datedFrom (20000 - 6)) ss))
  /\ pagesThisWeek sampleNow 7200000 ss
     = sum (map ReadingSession.pagesRead (List.filter (datedFrom (20000 - 6)) ss)).
Proof.
  intros ss.
  apply (week_sums_cover_sessions_from_six_days_ago sampleNow 7200000 ss).
  unfold msPerDay. lia.
Defined.

(** ** C6: the streak *)

Lemma isoDay_previous (t : Z) : isoDay (t - msPerDay) = isoDay t - 1.
Proof.
  unfold isoDay. replace (t - msPerDay) with (t + (-1) * msPerDay) by lia.
  rewrite Z.div_add by (unfold msPerDay; lia). lia.
Qed.

Lemma previousLocalDay_fixedOffset (tz t : Z) :
  previousLocalDay (fixedOffset tz) t = t - msPerDay.
Proof. unfold previousLocalDay, fixedOffset. cbn. lia. Qed.

Lemma has_loggedOn (ss : list ReadingSession) (t : Z) :
  has (map ReadingSession.date ss) t = true <-> loggedOn ss (isoDay t).
Proof.
  unfold has, loggedOn. rewrite bool_decide_eq_true. apply list_elem_of_In.
Qed.

Lemma has_not_loggedOn (ss : list ReadingSession) (t : Z) :
  has (map ReadingSession.date ss) t = false <-> ~ loggedOn ss (isoDay t).
Proof.
  rewrite <- has_loggedOn. destruct (has _ t); split; done.
Qed.

(** The loop on a run of [n] logged days, in a zone of fixed offset: it
    counts them and stops, provided it is past the point where the grace day
    applies. *)
Lemma streakLoop_run (tz : Z) (ss : list ReadingSession) (n fuel : nat) (current counter : Z) :
  (n < fuel)%nat ->
  runOfDays ss (isoDay current) n ->
  counter <> 0 \/ n <> O \/ ~ loggedOn ss (isoDay current - 1) ->
  0 <= counter ->
  streakLoop fuel (fixedOffset tz) (map ReadingSession.date ss) current counter
  = Some (counter + Z.of_nat n).
Proof.
  revert fuel current counter.
  induction n as [|n IH]; intros fuel current counter Hfuel [Hrun Hstop] Hgrace Hc.
  - destruct fuel as [|fuel]; [lia|]. cbn [streakLoop].
    replace (isoDay current - Z.of_nat 0) with (isoDay current) in Hstop by lia.
    rewrite (proj2 (has_not_loggedOn ss current) Hstop).
    destruct (Z.eqb_spec counter 0) as [->|Hne]; cbn [andb].
    + destruct Hgrace as [?|[?|Hy]]; try done.
      change 86400000 with msPerDay.
      rewrite (proj2 (has_not_loggedOn ss (current - msPerDay)))
        by (by rewrite isoDay_previous).
      f_equal; lia.
    + f_equal; lia.
  - destruct fuel as [|fuel]; [lia|]. cbn [streakLoop].
    rewrite (proj2 (has_loggedOn ss current))
      by (specialize (Hrun O ltac:(lia)); by replace (isoDay current - Z.of_nat 0)
            with (isoDay current) in Hrun by lia).
    rewrite previousLocalDay_fixedOffset.
    rewrite IH; [f_equal; lia|lia| |lia|lia].
    rewrite isoDay_previous. split.
    + intros i Hi. specialize (Hrun (S i) ltac:(lia)).
      by replace (isoDay current - 1 - Z.of_nat i) with (isoDay current - Z.of_nat (S i)) by lia.
    + by replace (isoDay current - 1 - Z.of_nat n) with (isoDay current - Z.of_nat (S n)) by lia.
Qed.

(** A logged run is no longer than the list of sessions. *)
Lemma runOfDays_bounded (ss : list ReadingSession) (d : Z) (n : nat) :
  (forall i : nat, (i < n)%nat -> loggedOn ss (d - Z.of_nat i)) -> (n <= length ss)%nat.
Proof.
  intros Hrun.
  set (run := map (fun i : nat => IsoDate (d - Z.of_nat i)) (seq 0 n)).
  assert (List.NoDup run) as Hnd.
  { apply Finite.Injective_map_NoDup; [|apply seq_NoDup].
    intros i j Hij. inversion Hij. lia. }
  assert (incl run (map ReadingSession.date ss)) as Hincl.
  { intros x Hx. apply in_map_iff in Hx as (i & <- & Hi). apply in_seq in Hi.
    apply Hrun. lia. }
  pose proof (NoDup_incl_length Hnd Hincl) as Hlen.
  unfold run in Hlen. rewrite !length_map, length_seq in Hlen. done.
Qed.

Lemma loggedOn_dec (ss : list ReadingSession) (d : Z) : {loggedOn ss d} + {~ loggedOn ss d}.
Proof. unfold loggedOn. apply in_dec. intros x y. apply (decide (x = y)). Defined.

(** Going back from any day, the logged days stop somewhere. *)
Lemma runOfDays_exists (ss : list ReadingSession) (d : Z) : exists n, runOfDays ss d n.
Proof.
  assert (forall m : nat,
             (forall i : nat, (i < m)%nat -> loggedOn ss (d - Z.of_nat i))
             \/ exists n, runOfDays ss d n) as Hsearch.
  { induction m as [|m [IH|IH]]; [left; lia| |by right].
    destruct (loggedOn_dec ss (d - Z.of_nat m)) as [Hin|Hout].
    - left. intros i Hi. destruct (decide (i = m)) as [->|]; [done|]. apply IH. lia.
    - right. by exists m. }
  destruct (Hsearch (S (length ss))) as [Hall|?]; [|done].
  apply runOfDays_bounded in Hall. lia.
Qed.

(** What [streak] computes in a zone of fixed offset: the run that ends
    today or, when today has no session, the run that ends yesterday. *)
Lemma streak_run (tz now : Z) (ss : list ReadingSession) (n : nat) :
  (loggedOn ss (isoDay now) /\ runOfDays ss (isoDay now) n)
  \/ (~ loggedOn ss (isoDay now) /\ runOfDays ss (isoDay now - 1) n) ->
  streak (fixedOffset tz) now ss = Some (Z.of_nat n).
Proof.
  intros H. unfold streak.
  destruct ss as [|s ss'] eqn:Ess.
  { destruct H as [[Hin _]|[_ [Hrun _]]]; [done|].
    destruct n; [done|]. destruct (Hrun O ltac:(lia)). }
  rewrite <- Ess in *. clear Ess s ss'.
  destruct H as [[Hin Hrun]|[Hout Hrun]].
  - rewrite (streakLoop_run tz ss n); [done| |done| |done].
    + pose proof (runOfDays_bounded ss _ n (proj1 Hrun)). lia.
    + right. left. intros ->. destruct Hrun as [_ Hstop]. apply Hstop.
      by replace (isoDay now - Z.of_nat 0) with (isoDay now) by lia.
  - pose proof (runOfDays_bounded ss _ n (proj1 Hrun)) as Hlen.
    cbn [streakLoop]. rewrite (proj2 (has_not_loggedOn ss now) Hout). cbn [Z.eqb andb].
    change 86400000 with msPerDay. rewrite previousLocalDay_fixedOffset.
    destruct n as [|n].
    + destruct Hrun as [_ Hstop].
      replace (isoDay now - 1 - Z.of_nat 0) with (isoDay now - 1) in Hstop by lia.
      rewrite (proj2 (has_not_loggedOn ss (now - msPerDay))) by (by rewrite isoDay_previous).
      done.
    + rewrite (proj2 (has_loggedOn ss (now - msPerDay))).
      2: { rewrite isoDay_previous. destruct Hrun as [Hrun _].
           specialize (Hrun O ltac:(lia)).
           by replace (isoDay now - 1 - Z.of_nat 0) with (isoDay now - 1) in Hrun by lia. }
      rewrite (streakLoop_run tz ss (S n)); [done|lia| |lia|lia].
      by rewrite isoDay_previous.
Qed.

(** In a zone of fixed offset the loop reaches its [break]: [streak] returns
    a count. *)
Lemma streak_returns (tz now : Z) (ss : list ReadingSession) :
  exists n : nat, streak (fixedOffset tz) now ss = Some (Z.of_nat n).
Proof.
  destruct (loggedOn_dec ss (isoDay now)) as [Hin|Hout].
  - destruct (runOfDays_exists ss (isoDay now)) as [n Hn].
    exists n. apply streak_run. by left.
  - destruct (runOfDays_exists ss (isoDay now - 1)) as [n Hn].
    exists n. apply streak_run. by right.
Qed.
(** C6.  New York, 2024-11-04 at 00:30 UTC, with sessions on today and on
    the two days before: the local day before is 25 hours long, [setDate]
    goes from 2024-11-04 to 2024-11-02 in UTC dates, the session of
    2024-11-03 is not seen and [streak] returns 2.  With steps of 24 hours,
    which is what the grace test of the same loop takes, it returns 3. *)
Theorem streak_misses_day_after_clock_change :
  isoDay eveningAfterClockChange = 20031
  /\ isoDay (previousLocalDay newYorkAutumn2024 eveningAfterClockChange) = 20029
  /\ streak newYorkAutumn2024 eveningAfterClockChange threeDaysRunning = Some 2
  /\ streak (fixedOffset (-18000000)) eveningAfterClockChange threeDaysRunning = Some 3.
Proof. repeat split; reflexivity. Qed.

(** ** The streak in a zone of fixed offset *)

(** In a zone that keeps one offset from UTC, [streak] returns the number of
    consecutive logged days that end today or, when today has no session,
    that end yesterday; no later gap is bridged.  Sessions on today and the
    two days before, none on the day before those, give 3; sessions on
    yesterday and the day before only give 2; sessions on the third day
    before today only give 0.  Days are the days of the UTC date. *)
Theorem streak_with_fixed_offset (tz now : Z) (ss : list ReadingSession) :
  let today := isoDay now in
  (forall n : nat,
      loggedOn ss today -> runOfDays ss today n -> streak (fixedOffset tz) now ss = Some (Z.of_nat n))
  /\ (forall n : nat,
      ~ loggedOn ss today -> runOfDays ss (today - 1) n -> streak (fixedOffset tz) now ss = Some (Z.of_nat n))
  /\ (loggedOn ss today -> loggedOn ss (today - 1) -> loggedOn ss (today - 2) ->
      ~ loggedOn ss (today - 3) -> streak (fixedOffset tz) now ss = Some 3)
  /\ (~ loggedOn ss today -> loggedOn ss (today - 1) -> loggedOn ss (today - 2) ->
      ~ loggedOn ss (today - 3) -> streak (fixedOffset tz) now ss = Some 2)
  /\ ((forall s, In s ss -> ReadingSession.date s = IsoDate (today - 3)) ->
      streak (fixedOffset tz) now ss = Some 0).
Proof.
  intros today.
  assert (forall (d : Z) (k : nat) (m : Z), m = Z.of_nat k -> d - Z.of_nat k = d - m) as Hk
    by (intros; lia).
  repeat split.
  - intros n Hin Hrun. apply streak_run. by left.
  - intros n Hout Hrun. apply streak_run. by right.
  - intros H0 H1 H2 H3. apply (streak_run tz now ss 3). left. split; [done|]. split.
    + intros i Hi.
      assert (i = 0 \/ i = 1 \/ i = 2)%nat as Hcases by lia.
      destruct Hcases as [-> | [-> | ->]].
      * by rewrite (Hk _ _ 0), Z.sub_0_r.
      * by rewrite (Hk _ _ 1).
      * by rewrite (Hk _ _ 2).
    + by rewrite (Hk _ _ 3).
  - intros H0 H1 H2 H3. apply (streak_run tz now ss 2). right. split; [done|]. split.
    + intros i Hi.
      assert (i = 0 \/ i = 1)%nat as Hcases by lia.
      destruct Hcases as [-> | ->].
      * by rewrite (Hk _ _ 0), Z.sub_0_r.
      * rewrite (Hk _ _ 1) by done. by replace (isoDay now - 1 - 1) with (today - 2) by lia.
    + rewrite (Hk _ _ 2) by done. by replace (isoDay now - 1 - 2) with (today - 3) by lia.
  - intros Hall. apply (streak_run tz now ss 0). right.
    assert (forall d, d <> today - 3 -> ~ loggedOn ss d) as Hno.
    { intros d Hd Hin. apply in_map_iff in Hin as (s & Hs & Hin).
      rewrite (Hall s Hin) in Hs. inversion Hs. lia. }
    split; [apply Hno; lia|]. split; [lia|]. apply Hno. cbn. unfold today. lia.
Qed.

Lemma streak_with_fixed_offset_witness :
  streak (fixedOffset 7200000) sampleNow [sampleSession "s3" 20000 5 10; sampleSession "s2" 19999 5 10;
                    sampleSession "s1" 19998 5 10] = Some 3
  /\ streak (fixedOffset 7200000) sampleNow [sampleSession "s2" 19999 5 10; sampleSession "s1" 19998 5 10] = Some 2
  /\ streak (fixedOffset 7200000) sampleNow [sampleSession "s1" 19997 5 10] = Some 0.
Proof.
  split; [|split].
  - apply (streak_with_fixed_offset 7200000 sampleNow
             [sampleSession "s3" 20000 5 10; sampleSession "s2" 19999 5 10;
              sampleSession "s1" 19998 5 10]).
    + left. reflexivity.
    + right. left. reflexivity.
    + right. right. left. reflexivity.
    + unfold loggedOn. cbn. intros [H|[H|[H|[]]]]; discriminate H.
  - apply (streak_with_fixed_offset 7200000 sampleNow
             [sampleSession "s2" 19999 5 10; sampleSession "s1" 19998 5 10]).
    + unfold loggedOn. cbn. intros [H|[H|[]]]; discriminate H.
    + left. reflexivity.
    + right. left. reflexivity.
    + unfold loggedOn. cbn. intros [H|[H|[]]]; discriminate H.
  - apply (streak_with_fixed_offset 7200000 sampleNow [sampleSession "s1" 19997 5 10]).
    intros s [<-|[]]. reflexivity.
Defined.

(** ** C8: loading the persisted state *)

Lemma lookup_spread_union (fields defaults : gmap string json) (k : string) :
  (fields ∪ defaults) !! k = orDefault fields defaults k.
Proof.
  unfold orDefault. destruct (fields !! k) as [v|] eqn:Hk.
  - by apply lookup_union_Some_l.
  - by rewrite lookup_union_r.
Qed.

(** C8.  The defaults are 420 weekly minutes, 30 daily pages, completed
    books shown, and no books or sessions.  Loading content that does not
    parse, or nothing at all, gives the default state.  Loading an object
    without [preferences] gives the default preferences and, for every other
    key, the stored value or else the default.  Loading an object whose
    [preferences] lacks fields gives, for every preference, the stored value
    or else the default. *)
Theorem hydrate_fills_in_defaults (JSON_parse : string -> option json) (raw : string) :
  raw <> "" ->
  (jsonOfPreferences (preferences DEFAULT_STATE) !! "weeklyMinutesGoal" = Some (JNum 420)
   /\ jsonOfPreferences (preferences DEFAULT_STATE) !! "dailyPagesGoal" = Some (JNum 30)
   /\ jsonOfPreferences (preferences DEFAULT_STATE) !! "showCompleted" = Some (JBool true)
   /\ DEFAULT_STATE_js !! "books" = Some (JArr [])
   /\ DEFAULT_STATE_js !! "sessions" = Some (JArr [])
   /\ DEFAULT_STATE_js !! "preferences"
      = Some (JObj (jsonOfPreferences (preferences DEFAULT_STATE))))
  /\ hydrate JSON_parse None = DEFAULT_STATE_js
  /\ (JSON_parse raw = None -> hydrate JSON_parse (Some raw) = DEFAULT_STATE_js)
  /\ (forall fields,
        JSON_parse raw = Some (JObj fields) -> fields !! "preferences" = None ->
        hydrate JSON_parse (Some raw) !! "preferences"
          = Some (JObj (jsonOfPreferences (preferences DEFAULT_STATE)))
        /\ forall k, k <> "preferences" ->
             hydrate JSON_parse (Some raw) !! k = orDefault fields DEFAULT_STATE_js k)
  /\ (forall fields stored,
        JSON_parse raw = Some (JObj fields) -> fields !! "preferences" = Some (JObj stored) ->
        (exists merged,
            hydrate JSON_parse (Some raw) !! "preferences" = Some (JObj merged)
            /\ forall k,
                 merged !! k
                 = orDefault stored (jsonOfPreferences (preferences DEFAULT_STATE)) k)
        /\ forall k, k <> "preferences" ->
             hydrate JSON_parse (Some raw) !! k = orDefault fields DEFAULT_STATE_js k).
Proof.
  intros Hraw. split; [repeat split; reflexivity|]. split; [reflexivity|].
  unfold hydrate. rewrite (isEmpty_false _ Hraw). split; [|split].
  - by intros ->.
  - intros fields -> Hnone. cbn [getPreferences]. rewrite Hnone. cbn [spread]. split.
    + rewrite lookup_insert_eq. do 2 f_equal; apply map_empty_union.
    + intros k Hk. rewrite lookup_insert_ne by done. apply lookup_spread_union.
  - intros fields stored -> Hsome. cbn [getPreferences]. rewrite Hsome. cbn [spread]. split.
    + eexists. split; [apply lookup_insert_eq|]. intros k. apply lookup_spread_union.
    + intros k Hk. rewrite lookup_insert_ne by done. apply lookup_spread_union.
Qed.

Lemma hydrate_fills_in_defaults_witness :
  hydrate sampleParse (Some "blob without preferences") !! "preferences"
    = Some (JObj (jsonOfPreferences (preferences DEFAULT_STATE)))
  /\ hydrate sampleParse (Some "blob without preferences") !! "books"
     = Some (JArr [JStr "a book"])
  /\ hydrate sampleParse (Some "not a blob") = DEFAULT_STATE_js.
Proof.
  pose proof (hydrate_fills_in_defaults sampleParse "blob without preferences"
                ltac:(discriminate)) as (_ & _ & _ & Hwithout & _).
  destruct (Hwithout _ eq_refl eq_refl) as [Hprefs Hother].
  split; [exact Hprefs|]. split.
  - rewrite (Hother "books") by discriminate. reflexivity.
  - apply (hydrate_fills_in_defaults sampleParse "not a blob"); [discriminate|reflexivity].
Defined.

(** * Further properties of the handlers and of the derived values *)

(** ** Accepted submissions *)

Lemma isEmpty_true_iff (s : string) : isEmpty s = true <-> s = "".
Proof. destruct s; split; intros H; done. Qed.

(** [handleBookSubmit] accepts exactly the forms with a title and an author
    that are not blank and a total that reads as a positive number.  It then
    puts the new book, with no page read, in front of the list, keeps the
    sessions and the preferences, empties the book form and points the
    session form at the new book.  The total of the book is the number read,
    which is exact up to [maxSafeInteger]. *)
Theorem book_submission_accepted (a : App) (newId : string) (now : Z) :
  (error (handleBookSubmit newId now a) = None <-> exists total, validBook a total)
  /\ forall total, validBook a total -> total <= maxSafeInteger ->
       books (state (handleBookSubmit newId now a))
       = {| Book.id := newId;
            Book.title := trim (bf_title (bookForm a));
            Book.author := trim (bf_author (bookForm a));
            Book.totalPages := total;
            Book.currentPage := 0;
            Book.status := NotStarted;
            Book.startedAt := todayIso now;
            Book.targetDate := orUndefined (bf_targetDate (bookForm a));
            Book.notes := orUndefined (trim (bf_notes (bookForm a))) |}
         :: books (state a)
       /\ sessions (state (handleBookSubmit newId now a)) = sessions (state a)
       /\ preferences (state (handleBookSubmit newId now a)) = preferences (state a)
       /\ bookForm (handleBookSubmit newId now a) = emptyBookForm
       /\ sf_bookId (sessionForm (handleBookSubmit newId now a)) = newId.
Proof.
  unfold validBook, handleBookSubmit. cbn [setError bookForm state error sessionForm].
  destruct (isEmpty (trim (bf_title (bookForm a)))) eqn:Et.
  { apply isEmpty_true_iff in Et. split.
    - split; [done|]. intros (total & Ht & _). done.
    - intros total (Ht & _) _. done. }
  destruct (isEmpty (trim (bf_author (bookForm a)))) eqn:Ea.
  { apply isEmpty_true_iff in Ea. split.
    - split; [done|]. intros (total & _ & Hau & _). done.
    - intros total (_ & Hau & _) _. done. }
  cbn [orb].
  assert (trim (bf_title (bookForm a)) <> "") as Ht by (intros H; by rewrite H in Et).
  assert (trim (bf_author (bookForm a)) <> "") as Hau by (intros H; by rewrite H in Ea).
  destruct (parseInt (bf_totalPages (bookForm a))) as [total|].
  2: { split; [|by intros total (_ & _ & ? & _) _]. split; [done|].
       by intros (total & _ & _ & ? & _). }
  destruct (Z.leb_spec total 0) as [Hle|Hgt].
  - split.
    + split; [done|]. intros (total' & _ & _ & Heq & Hpos). inversion Heq. lia.
    + intros total' (_ & _ & Heq & Hpos) _. inversion Heq. lia.
  - split.
    + split; [|done]. intros _. by exists total.
    + intros total' (_ & _ & Heq & _) _. inversion Heq; subst total'. done.
Qed.

Lemma book_submission_accepted_witness :
  books (state (handleBookSubmit "b2" sampleNow (setBookForm (sampleBookForm "321") appAt90)))
  = {| Book.id := "b2"; Book.title := "Dune"; Book.author := "Frank Herbert";
       Book.totalPages := 321; Book.currentPage := 0; Book.status := NotStarted;
       Book.startedAt := IsoDate 20000; Book.targetDate := None; Book.notes := None |}
    :: books (state appAt90).
Proof.
  apply (proj2 (book_submission_accepted (setBookForm (sampleBookForm "321") appAt90)
                  "b2" sampleNow) 321).
  - unfold validBook. repeat split; try reflexivity; discriminate.
  - vm_compute. discriminate.
Defined.

(** [handleSessionSubmit] accepts exactly the forms that name a listed book
    and hold positive pages and minutes.  It then adds one session, which
    carries the pages and minutes as entered (numbers up to
    [maxSafeInteger], which are read exactly), keeps the books in place
    under their ids, keeps the preferences, and clears the pages, minutes and
    note of the form while keeping its book and date. *)
Theorem session_submission_accepted (a : App) (newId : string) :
  (error (handleSessionSubmit newId a) = None
   <-> exists book pages minutes, validSession a book pages minutes)
  /\ forall book pages minutes, validSession a book pages minutes ->
       pages <= maxSafeInteger -> minutes <= maxSafeInteger ->
       Permutation (sessions (state (handleSessionSubmit newId a)))
                   (loggedSession a newId book pages minutes :: sessions (state a))
       /\ map Book.id (books (state (handleSessionSubmit newId a)))
          = map Book.id (books (state a))
       /\ preferences (state (handleSessionSubmit newId a)) = preferences (state a)
       /\ sessionForm (handleSessionSubmit newId a)
          = {| sf_bookId := sf_bookId (sessionForm a); sf_date := sf_date (sessionForm a);
               sf_pagesRead := ""; sf_minutes := ""; sf_note := "" |}.
Proof.
  split.
  - split.
    + intros Herr.
      destruct (handleSessionSubmit_cases a newId) as [[message Hm]|?]; [|done].
      rewrite Hm in Herr. discriminate Herr.
    + intros (book & pages & minutes & Hvalid).
      by destruct (handleSessionSubmit_valid a newId book pages minutes Hvalid) as (_ & _ & _ & ?).
  - intros book pages minutes Hvalid _ _.
    destruct (handleSessionSubmit_valid a newId book pages minutes Hvalid)
      as (Hbooks & Hsess & Hprefs & _).
    rewrite Hbooks, Hsess, Hprefs. repeat split.
    + apply sort_perm.
    + apply map_id_preserved. apply logUpdate_id.
    + destruct Hvalid as (Hne & Hbook & Hp & Hp0 & Hm & Hm0).
      unfold handleSessionSubmit. cbn [setError sessionForm state].
      rewrite (isEmpty_false _ Hne), Hbook, Hp, Hm.
      assert ((pages <=? 0) = false) as -> by lia.
      assert ((minutes <=? 0) = false) as -> by lia.
      reflexivity.
Qed.

Lemma session_submission_accepted_witness :
  Permutation
    (sessions (state (handleSessionSubmit "s2"
       (setSessionForm (sampleSessionForm 20001 "5") appAt90))))
    (loggedSession (setSessionForm (sampleSessionForm 20001 "5") appAt90) "s2"
       (sampleBook 90 InProgress) 5 30 :: sessions (state appAt90)).
Proof.
  apply (proj2 (session_submission_accepted
                  (setSessionForm (sampleSessionForm 20001 "5") appAt90) "s2")
               (sampleBook 90 InProgress) 5 30).
  - unfold validSession. repeat split; try reflexivity; try lia. discriminate.
  - vm_compute. discriminate.
  - vm_compute. discriminate.
Defined.

(** ** The order of the sessions *)

Section SortSpec.

Context {A : Type} (cmp : A -> A -> Z) (R : A -> A -> Prop) (P : A -> Prop).

Hypothesis R_trans : forall x y z, R x y -> R y z -> R x z.
Hypothesis cmp_keep : forall x y, P x -> P y -> (0 <? cmp x y) = false -> R x y.
Hypothesis cmp_move : forall x y, P x -> P y -> (0 <? cmp x y) = true -> R y x.
Hypothesis R_keep : forall x y, R x y -> (0 <? cmp x y) = false.

Lemma insertSorted_sorted (x : A) (l : list A) :
  P x -> Forall P l -> StronglySorted R l -> StronglySorted R (insertSorted cmp x l).
Proof.
  intros Hx. induction l as [|y l IH]; intros Hl Hs; simpl.
  - repeat constructor.
  - apply StronglySorted_inv in Hs as [Hs Hy].
    apply List.Forall_cons_iff in Hl as [HPy Hl].
    destruct (0 <? cmp x y) eqn:Hc.
    + constructor; [by apply IH|].
      eapply Permutation_Forall; [symmetry; apply insertSorted_perm|].
      constructor; [by apply cmp_move|done].
    + constructor; [by constructor|].
      assert (R x y) as Hxy by (by apply cmp_keep).
      constructor; [done|]. eapply Forall_impl; [exact Hy|]. intros z Hz. by eapply R_trans.
Qed.

Lemma sort_sorted (l : list A) : Forall P l -> StronglySorted R (sort cmp l).
Proof.
  induction l as [|x l IH]; intros Hl; simpl; [constructor|].
  apply List.Forall_cons_iff in Hl as [Hx Hl].
  apply insertSorted_sorted; [done| |by apply IH].
  eapply Permutation_Forall; [symmetry; apply sort_perm|done].
Qed.

Lemma sort_sorted_fixed (l : list A) : StronglySorted R l -> sort cmp l = l.
Proof.
  induction 1 as [|x l Hs IH Hx]; simpl; [done|].
  rewrite IH. destruct l as [|y l]; simpl; [done|].
  apply List.Forall_cons_iff in Hx as [Hxy _]. by rewrite (R_keep _ _ Hxy).
Qed.

(** The place [insertSorted] gives to [x]: after the elements it has to
    follow, in front of the rest. *)
Lemma insertSorted_split (x : A) (l : list A) :
  exists front rest,
    l = (front ++ rest)%list /\ insertSorted cmp x l = (front ++ x :: rest)%list
    /\ Forall (fun y => 0 < cmp x y) front
    /\ match rest with [] => True | y :: _ => cmp x y <= 0 end.
Proof.
  induction l as [|y l (front & rest & Hl & Hins & Hfront & Hrest)]; simpl.
  - exists [], []. repeat split; constructor.
  - destruct (Z.ltb_spec 0 (cmp x y)) as [Hlt|Hge].
    + exists (y :: front), rest. rewrite Hl at 1. rewrite Hins.
      repeat split; [by constructor|done].
    + exists [], (y :: l). repeat split; [constructor|done].
Qed.

End SortSpec.

Lemma notEarlier_trans (x y z : ReadingSession) : notEarlier x y -> notEarlier y z -> notEarlier x z.
Proof.
  intros (dx & dy & Hx & Hy & Hxy) (dy' & dz & Hy' & Hz & Hyz).
  rewrite Hy in Hy'. inversion Hy'; subst dy'. exists dx, dz. repeat split; try done. lia.
Qed.

Lemma byDateDesc_days (x y : ReadingSession) (dx dy : Z) :
  ReadingSession.date x = IsoDate dx -> ReadingSession.date y = IsoDate dy ->
  byDateDesc x y = (dy - dx) * msPerDay.
Proof. intros Hx Hy. unfold byDateDesc. rewrite Hx, Hy. cbn. lia. Qed.

Lemma byDateDesc_keep (x y : ReadingSession) :
  hasIsoDate x -> hasIsoDate y -> (0 <? byDateDesc x y) = false -> notEarlier x y.
Proof.
  intros [dx Hx] [dy Hy] Hc. rewrite (byDateDesc_days x y dx dy Hx Hy) in Hc.
  exists dx, dy. repeat split; try done. unfold msPerDay in Hc. lia.
Qed.

Lemma byDateDesc_move (x y : ReadingSession) :
  hasIsoDate x -> hasIsoDate y -> (0 <? byDateDesc x y) = true -> notEarlier y x.
Proof.
  intros [dx Hx] [dy Hy] Hc. rewrite (byDateDesc_days x y dx dy Hx Hy) in Hc.
  exists dy, dx. repeat split; try done. unfold msPerDay in Hc. lia.
Qed.

Lemma notEarlier_keep (x y : ReadingSession) : notEarlier x y -> (0 <? byDateDesc x y) = false.
Proof.
  intros (dx & dy & Hx & Hy & Hle). rewrite (byDateDesc_days x y dx dy Hx Hy).
  unfold msPerDay. lia.
Qed.

Lemma StronglySorted_filter {A} (R : A -> A -> Prop) (c : A -> bool) (l : list A) :
  StronglySorted R l -> StronglySorted R (List.filter c l).
Proof.
  induction 1 as [|x l Hs IH Hx]; simpl; [constructor|].
  destruct (c x); [|done]. constructor; [done|]. by apply Forall_filter_keep.
Qed.

Lemma newestFirst_step (a : App) (o : Op) :
  datePicked a o = true -> newestFirst a -> newestFirst (applyOp a o).
Proof.
  intros Hok [Hd Hs]. unfold newestFirst.
  destruct o as [form newId now|form newId|sessionId|bookId newPage]; cbn [applyOp].
  - destruct (handleBookSubmit_cases (setBookForm form a) newId now)
      as [[message ->]|(newBook & _ & _ & _ & _ & _ & ->)]; by split.
  - destruct (handleSessionSubmit_cases (setSessionForm form a) newId)
      as [[message ->]|(book & pages & minutes & Hvalid)]; [by split|].
    destruct (handleSessionSubmit_valid _ newId _ _ _ Hvalid) as (_ & -> & _).
    assert (Forall hasIsoDate
              (loggedSession (setSessionForm form a) newId book pages minutes
               :: sessions (state (setSessionForm form a)))) as Hall.
    { constructor; [|done]. cbn in Hok. unfold hasIsoDate. cbn.
      destruct (sf_date form) as [d|raw]; [by exists d|discriminate Hok]. }
    split.
    + by apply Forall_sort.
    + apply (sort_sorted byDateDesc notEarlier hasIsoDate);
        [apply notEarlier_trans|apply byDateDesc_keep|apply byDateDesc_move|exact Hall].
  - unfold removeSession.
    destruct (find _ (sessions (state a))) as [session|]; [|by split].
    cbn [setBooks state sessions]. split.
    + by apply Forall_filter_keep.
    + by apply StronglySorted_filter.
  - by split.
Qed.

(** As long as every logged session carries a date that parses, which is
    all the date picker hands over, the session list is ordered from the
    latest date to the earliest after any run of operations. *)
Theorem sessions_stay_newest_first (ops : list Op) (now : Z) :
  admissible datePicked (initialApp now) ops = true ->
  StronglySorted notEarlier (sessions (state (run ops (initialApp now)))).
Proof.
  intros Hadm.
  assert (forall a, admissible datePicked a ops = true -> newestFirst a ->
                    newestFirst (run ops a)) as Hrun.
  { clear Hadm. induction ops as [|o ops IH]; intros a Hadm Ha; [done|].
    cbn [admissible] in Hadm. apply andb_true_iff in Hadm as [Ho Hrest].
    cbn. apply IH; [done|]. by apply newestFirst_step. }
  apply Hrun; [done|]. split; constructor.
Qed.

Lemma sessions_stay_newest_first_witness :
  StronglySorted notEarlier
    (sessions (state (run [AddBook (sampleBookForm "100") "b1" sampleNow;
                           LogSession (sampleSessionForm 19990 "10") "s1";
                           LogSession (sampleSessionForm 20000 "10") "s2";
                           LogSession (sampleSessionForm 19995 "10") "s3";
                           RemoveSession "s1"] (initialApp sampleNow)))).
Proof.
  apply (sessions_stay_newest_first
           [AddBook (sampleBookForm "100") "b1" sampleNow;
            LogSession (sampleSessionForm 19990 "10") "s1";
            LogSession (sampleSessionForm 20000 "10") "s2";
            LogSession (sampleSessionForm 19995 "10") "s3";
            RemoveSession "s1"] sampleNow).
  reflexivity.
Defined.

Lemma StronglySorted_app_r {A} (R : A -> A -> Prop) (l1 l2 : list A) :
  StronglySorted R (l1 ++ l2)%list -> StronglySorted R l2.
Proof.
  induction l1 as [|x l1 IH]; simpl; [done|].
  intros Hs. apply StronglySorted_inv in Hs as [Hs _]. by apply IH.
Qed.

(** Logging into a list that is ordered from the latest date to the
    earliest moves no session: the new session goes behind the sessions with
    a later date and in front of those with the same or an earlier date.
    The numbers entered are at most [maxSafeInteger], so that the session is
    stored with them. *)
Theorem logged_session_inserted_by_date
    (a : App) (newId : string) (book : Book) (pages minutes day : Z) :
  validSession a book pages minutes ->
  pages <= maxSafeInteger -> minutes <= maxSafeInteger ->
  sf_date (sessionForm a) = IsoDate day ->
  Forall hasIsoDate (sessions (state a)) ->
  StronglySorted notEarlier (sessions (state a)) ->
  exists later rest,
    sessions (state a) = (later ++ rest)%list
    /\ sessions (state (handleSessionSubmit newId a))
       = (later ++ loggedSession a newId book pages minutes :: rest)%list
    /\ Forall (fun s => exists d, ReadingSession.date s = IsoDate d /\ day < d) later
    /\ Forall (fun s => exists d, ReadingSession.date s = IsoDate d /\ d <= day) rest.
Proof.
  intros Hvalid _ _ Hdate Hiso Hsorted.
  destruct (handleSessionSubmit_valid a newId book pages minutes Hvalid) as (_ & -> & _).
  set (new := loggedSession a newId book pages minutes).
  assert (ReadingSession.date new = IsoDate day) as Hnew by exact Hdate.
  cbn [sort fold_right].
  change (fold_right (insertSorted byDateDesc) [] (sessions (state a)))
    with (sort byDateDesc (sessions (state a))).
  rewrite (sort_sorted_fixed byDateDesc notEarlier notEarlier_keep _ Hsorted).
  destruct (insertSorted_split byDateDesc new (sessions (state a)))
    as (later & rest & Hl & Hins & Hlater & Hrest).
  exists later, rest. rewrite Hl in Hiso, Hsorted.
  apply Forall_app in Hiso as [Hiso1 Hiso2].
  repeat split; try done.
  - apply List.Forall_forall. intros s Hs.
    destruct (proj1 (List.Forall_forall _ _) Hiso1 s Hs) as [d Hd].
    pose proof (proj1 (List.Forall_forall _ _) Hlater s Hs) as Hc. cbn in Hc.
    rewrite (byDateDesc_days new s day d Hnew Hd) in Hc.
    exists d. split; [done|]. unfold msPerDay in Hc. lia.
  - apply StronglySorted_app_r in Hsorted.
    destruct rest as [|y rest]; [constructor|].
    apply List.Forall_cons_iff in Hiso2 as [[dy Hy] _].
    rewrite (byDateDesc_days new y day dy Hnew Hy) in Hrest.
    assert (dy <= day) as Hle by (unfold msPerDay in Hrest; lia).
    apply StronglySorted_inv in Hsorted as [_ Hafter].
    constructor; [by exists dy|].
    eapply Forall_impl; [exact Hafter|].
    intros z (dy' & dz & Hy' & Hz & Hzy). rewrite Hy in Hy'. inversion Hy'; subst dy'.
    exists dz. split; [done|lia].
Qed.

Lemma logged_session_inserted_by_date_witness :
  exists later rest,
    sessions (state appAt90) = (later ++ rest)%list
    /\ sessions (state (handleSessionSubmit "s2"
          (setSessionForm (sampleSessionForm 20000 "5") appAt90)))
       = (later ++ loggedSession (setSessionForm (sampleSessionForm 20000 "5") appAt90) "s2"
                     (sampleBook 90 InProgress) 5 30 :: rest)%list
    /\ Forall (fun s => exists d, ReadingSession.date s = IsoDate d /\ 20000 < d) later
    /\ Forall (fun s => exists d, ReadingSession.date s = IsoDate d /\ d <= 20000) rest.
Proof.
  apply (logged_session_inserted_by_date
           (setSessionForm (sampleSessionForm 20000 "5") appAt90) "s2"
           (sampleBook 90 InProgress) 5 30 20000).
  - unfold validSession. repeat split; try reflexivity; try lia. discriminate.
  - vm_compute. discriminate.
  - vm_compute. discriminate.
  - reflexivity.
  - repeat constructor. by exists 20000.
  - repeat constructor.
Defined.

(** ** [removeSession] *)

Lemma find_none_filter_all (sessionId : string) (ss : list ReadingSession) :
  find (fun item => String.eqb (ReadingSession.id item) sessionId) ss = None ->
  ~ In sessionId (map ReadingSession.id ss).
Proof.
  intros Hfind Hin. apply in_map_iff in Hin as (s & Hid & Hin).
  pose proof (find_none _ _ Hfind s Hin) as Hs. cbn in Hs.
  rewrite Hid, String.eqb_refl in Hs. discriminate Hs.
Qed.

(** [removeSession] with an id no session has leaves the application as it
    is.  In every case the sessions that remain are the sessions with another
    id, in their order, no book is added, dropped or renamed, and the
    preferences stay. *)
Theorem removeSession_drops_only_that_id (a : App) (sessionId : string) :
  (~ In sessionId (sessionIds a) -> removeSession sessionId a = a)
  /\ sessions (state (removeSession sessionId a))
     = List.filter (fun item => negb (String.eqb (ReadingSession.id item) sessionId))
                   (sessions (state a))
  /\ ~ In sessionId (sessionIds (removeSession sessionId a))
  /\ bookIds (removeSession sessionId a) = bookIds a
  /\ preferences (state (removeSession sessionId a)) = preferences (state a).
Proof.
  unfold removeSession, sessionIds, bookIds.
  destruct (find _ (sessions (state a))) as [session|] eqn:Hfind.
  - cbn [setBooks state books sessions preferences]. repeat split.
    + intros Hnot. exfalso. apply Hnot. apply find_some in Hfind as [Hin Hid].
      apply String.eqb_eq in Hid. rewrite <- Hid. by apply in_map.
    + intros Hin. apply in_map_iff in Hin as (s & Hid & Hin).
      apply filter_In in Hin as [_ Hne]. rewrite Hid, String.eqb_refl in Hne. discriminate Hne.
    + apply (map_id_preserved (unlogUpdate session)). apply unlogUpdate_id.
  - pose proof (find_none_filter_all _ _ Hfind) as Hnot. repeat split; try done.
    by rewrite filter_none_removed.
Qed.

Lemma removeSession_drops_only_that_id_witness :
  removeSession "s7" appAt90 = appAt90.
Proof.
  apply (proj1 (removeSession_drops_only_that_id appAt90 "s7")).
  cbn. intros [H|[]]. discriminate H.
Defined.



(** ** [updateBookProgress] *)

Lemma progressOnBook_twice (v1 v2 : Z) (book : Book) :
  progressOnBook v2 (progressOnBook v1 book) = progressOnBook v2 book.
Proof. reflexivity. Qed.

(** Of two changes of the progress of the same book the later one wins, and
    the sessions and the preferences are not touched: the session list is not
    reconciled with the page set by hand. *)
Theorem updateBookProgress_last_wins (a : App) (bookId : string) (v1 v2 : Z) :
  updateBookProgress bookId v2 (updateBookProgress bookId v1 a) = updateBookProgress bookId v2 a
  /\ sessions (state (updateBookProgress bookId v1 a)) = sessions (state a)
  /\ preferences (state (updateBookProgress bookId v1 a)) = preferences (state a)
  /\ bookIds (updateBookProgress bookId v1 a) = bookIds a.
Proof.
  repeat split.
  - unfold updateBookProgress, setBooks. cbn [state books sessions preferences bookForm
      sessionForm error]. do 2 f_equal. rewrite map_map. apply map_ext. intros book.
    destruct (String.eqb_spec (Book.id book) bookId) as [Heq|Hne]; cbn [progressOnBook Book.id].
    + destruct (String.eqb_spec (Book.id book) bookId); [apply progressOnBook_twice|done].
    + by destruct (String.eqb_spec (Book.id book) bookId).
  - unfold bookIds, updateBookProgress. cbn [setBooks state books].
    rewrite map_map. apply map_ext. intros book. by destruct (String.eqb _ _).
Qed.

(** With a page inside the range of the slider, [0 .. totalPages], the book
    is put on exactly that page, its status agrees with it, and the other
    books are as before. *)
Theorem updateBookProgress_in_range (a : App) (bookId : string) (value : Z) (book : Book) :
  booksById (books (state a)) !! bookId = Some book ->
  0 <= value <= Book.totalPages book -> 0 < Book.totalPages book ->
  (exists book',
      booksById (books (state (updateBookProgress bookId value a))) !! bookId = Some book'
      /\ Book.currentPage book' = value
      /\ Book.totalPages book' = Book.totalPages book
      /\ statusAgrees book')
  /\ forall k, k <> bookId ->
       booksById (books (state (updateBookProgress bookId value a))) !! k
       = booksById (books (state a)) !! k.
Proof.
  intros Hbook Hrange Htotal.
  assert (forall k,
             booksById (books (state (updateBookProgress bookId value a))) !! k
             = (fun b => if String.eqb (Book.id b) bookId then progressOnBook value b else b)
                 <$> booksById (books (state a)) !! k) as Hlookup.
  { intros k. unfold updateBookProgress. cbn [setBooks state books].
    apply booksById_map. intros b. by destruct (String.eqb _ _). }
  split.
  - rewrite Hlookup, Hbook. cbn [fmap option_fmap option_map].
    destruct (booksById_lookup _ _ _ Hbook) as [Hid _]. rewrite Hid, String.eqb_refl.
    eexists. split; [reflexivity|].
    assert (bookOk (progressOnBook value book)) as (_ & _ & Hst).
    { unfold bookOk, statusAgrees, progressOnBook, clamp. cbn.
      destruct (Z.leb_spec (Book.totalPages book) value);
        [|destruct (Z.eqb_spec value 0)]; repeat split; intros; try lia; try done. }
    split; [cbn; unfold clamp; lia|]. split; [reflexivity|exact Hst].
  - intros k Hk. rewrite Hlookup.
    destruct (booksById (books (state a)) !! k) as [b|] eqn:Hb; [|done].
    cbn. destruct (booksById_lookup _ _ _ Hb) as [Hid _]. rewrite Hid.
    by destruct (String.eqb_spec k bookId).
Qed.

Lemma updateBookProgress_in_range_witness :
  exists book',
    booksById (books (state (updateBookProgress "b1" 42 appAt90))) !! "b1" = Some book'
    /\ Book.currentPage book' = 42
    /\ Book.totalPages book' = 100
    /\ statusAgrees book'.
Proof.
  apply (updateBookProgress_in_range appAt90 "b1" 42 (sampleBook 90 InProgress)).
  - reflexivity.
  - simpl. lia.
  - simpl. lia.
Defined.

(** ** The preferences *)

(** Toggling the visibility of completed books twice gives back the
    application as it was, and one toggle changes nothing but that flag. *)
Theorem toggleCompletedVisibility_twice (a : App) :
  toggleCompletedVisibility (toggleCompletedVisibility a) = a
  /\ showCompleted (preferences (state (toggleCompletedVisibility a)))
     = negb (showCompleted (preferences (state a)))
  /\ weeklyMinutesGoal (preferences (state (toggleCompletedVisibility a)))
     = weeklyMinutesGoal (preferences (state a))
  /\ dailyPagesGoal (preferences (state (toggleCompletedVisibility a)))
     = dailyPagesGoal (preferences (state a))
  /\ books (state (toggleCompletedVisibility a)) = books (state a)
  /\ sessions (state (toggleCompletedVisibility a)) = sessions (state a).
Proof.
  destruct a as [[bs ss [wm dp sc]] bf sf e].
  unfold toggleCompletedVisibility, setPreferences. cbn.
  repeat split. by rewrite negb_involutive.
Qed.

(** [updateGoal] ignores a value that is not a number or not positive.  A
    positive value becomes the goal of the named field; the other goal, the
    visibility flag, the books and the sessions stay. *)
Theorem updateGoal_sets_one_goal (a : App) (field : GoalField) (value : option Z) :
  (notPositive value = true -> updateGoal field value a = a)
  /\ forall v, value = Some v -> 0 < v ->
       goalOf field (preferences (state (updateGoal field value a))) = v
       /\ (forall other, other <> field ->
             goalOf other (preferences (state (updateGoal field value a)))
             = goalOf other (preferences (state a)))
       /\ showCompleted (preferences (state (updateGoal field value a)))
          = showCompleted (preferences (state a))
       /\ books (state (updateGoal field value a)) = books (state a)
       /\ sessions (state (updateGoal field value a)) = sessions (state a).
Proof.
  split.
  - intros Hbad. unfold updateGoal. destruct value as [v|]; [|done].
    cbn in Hbad. by rewrite Hbad.
  - intros v -> Hv. unfold updateGoal.
    assert ((v <=? 0) = false) as -> by lia.
    destruct field; cbn; repeat split; intros other Hother; by destruct other.
Qed.

Lemma updateGoal_sets_one_goal_witness :
  updateGoal DailyPagesGoal (Some (-5)) appAt90 = appAt90
  /\ goalOf WeeklyMinutesGoal (preferences (state (updateGoal WeeklyMinutesGoal (Some 600) appAt90)))
     = 600.
Proof.
  split.
  - apply (proj1 (updateGoal_sets_one_goal appAt90 DailyPagesGoal (Some (-5)))). reflexivity.
  - apply (proj2 (updateGoal_sets_one_goal appAt90 WeeklyMinutesGoal (Some 600)) 600);
      [reflexivity|lia].
Defined.

(** ** The book lists that are shown *)

Lemma filter_partition_perm {A} (c : A -> bool) (l : list A) :
  Permutation (List.filter c l ++ List.filter (fun x => negb (c x)) l)%list l.
Proof.
  induction l as [|x l IH]; simpl; [done|].
  destruct (c x); simpl.
  - by constructor.
  - rewrite <- Permutation_middle. by constructor.
Qed.

(** The completed and the active books split the book list: every book is
    in exactly one of them.  The filtered list is the whole list while
    completed books are shown and the active books otherwise, so it then
    holds no completed book. *)
Theorem shown_books_partition (s : TrackerState) :
  Permutation (completedBooks (books s) ++ activeBooks (books s))%list (books s)
  /\ (forall book, In book (completedBooks (books s))
                   <-> In book (books s) /\ Book.status book = Completed)
  /\ (forall book, In book (activeBooks (books s))
                   <-> In book (books s) /\ Book.status book <> Completed)
  /\ (showCompleted (preferences s) = true -> filteredBooks s = books s)
  /\ (showCompleted (preferences s) = false -> filteredBooks s = activeBooks (books s)).
Proof.
  split; [apply filter_partition_perm|].
  unfold completedBooks, activeBooks, filteredBooks, isCompleted.
  split; [|split; [|split]].
  - intros book. rewrite filter_In, bool_decide_eq_true. done.
  - intros book. rewrite filter_In, negb_true_iff, bool_decide_eq_false. done.
  - by intros ->.
  - by intros ->.
Qed.

Lemma shown_books_partition_witness :
  let s := {| books := [sampleBook 100 Completed; sampleBook 40 InProgress]; sessions := [];
              preferences :=
                {| weeklyMinutesGoal := 420; dailyPagesGoal := 30; showCompleted := false |} |} in
  filteredBooks s = activeBooks (books s).
Proof.
  intros s. apply (shown_books_partition s). reflexivity.
Defined.

(** ** Sessions and the books they name *)

Lemma fold_setById_is_Some (bs : list Book) (m : gmap string Book) (k : string) :
  In k (map Book.id bs) \/ is_Some (m !! k) -> is_Some (fold_left setById bs m !! k).
Proof.
  revert m. induction bs as [|b bs IH]; intros m H; simpl.
  - destruct H as [[]|H]. done.
  - apply IH. destruct H as [[Hb|Hin]|Hm].
    + right. unfold setById. rewrite Hb. rewrite lookup_insert_eq. by eexists.
    + by left.
    + right. unfold setById. rewrite lookup_insert. case_decide; [by eexists|done].
Qed.

Lemma booksById_is_Some (bs : list Book) (k : string) :
  In k (map Book.id bs) -> is_Some (booksById bs !! k).
Proof. intros H. rewrite booksById_fold. apply fold_setById_is_Some. by left. Qed.

Lemma sessionsNameBooks_step (a : App) (o : Op) :
  sessionsNameBooks a -> sessionsNameBooks (applyOp a o).
Proof.
  unfold sessionsNameBooks, bookIds. intros Href.
  destruct o as [form newId now|form newId|sessionId|bookId newPage]; cbn [applyOp].
  - destruct (handleBookSubmit_cases (setBookForm form a) newId now)
      as [[message ->]|(newBook & _ & _ & _ & _ & -> & ->)]; [done|].
    cbn [setBookForm state]. eapply Forall_impl; [exact Href|]. intros s Hs. by right.
  - destruct (handleSessionSubmit_cases (setSessionForm form a) newId)
      as [[message ->]|(book & pages & minutes & Hvalid)]; [done|].
    destruct (handleSessionSubmit_valid _ newId _ _ _ Hvalid) as (-> & -> & _).
    destruct Hvalid as (_ & Hbook & _).
    destruct (booksById_lookup _ _ _ Hbook) as [_ Hin].
    cbn [setSessionForm state] in *.
    rewrite map_id_preserved by apply logUpdate_id.
    apply Forall_sort. constructor; [|done]. cbn. by apply in_map.
  - unfold removeSession.
    destruct (find _ (sessions (state a))) as [session|]; [|done].
    cbn [setBooks state books sessions].
    rewrite (map_id_preserved (unlogUpdate session)) by apply unlogUpdate_id.
    by apply Forall_filter_keep.
  - cbn [updateBookProgress setBooks state books sessions].
    rewrite map_id_preserved; [done|]. intros b. by destruct (String.eqb _ _).
Qed.

(** Whatever the operations, every session in the list names a book that is
    in the list, so the lookup of its book by id succeeds. *)
Theorem sessions_name_listed_books (ops : list Op) (now : Z) (session : ReadingSession) :
  In session (sessions (state (run ops (initialApp now)))) ->
  In (ReadingSession.bookId session) (bookIds (run ops (initialApp now)))
  /\ is_Some (booksById (books (state (run ops (initialApp now))))
                !! ReadingSession.bookId session).
Proof.
  intros Hin.
  assert (forall a, sessionsNameBooks a -> sessionsNameBooks (run ops a)) as Hrun.
  { clear Hin. induction ops as [|o ops IH]; intros a Ha; [done|].
    cbn. apply IH. by apply sessionsNameBooks_step. }
  assert (sessionsNameBooks (run ops (initialApp now))) as Hall
    by (apply Hrun; constructor).
  pose proof (proj1 (List.Forall_forall _ _) Hall session Hin) as Hbook.
  split; [done|]. by apply booksById_is_Some.
Qed.

Lemma sessions_name_listed_books_witness :
  In "b1" (bookIds appAt90) /\ is_Some (booksById (books (state appAt90)) !! "b1").
Proof.
  apply (sessions_name_listed_books
           [AddBook (sampleBookForm "100") "b1" sampleNow;
            LogSession (sampleSessionForm 20000 "90") "s1"] sampleNow
           (sampleSession "s1" 20000 90 30)).
  left. reflexivity.
Defined.

(** ** The effect that keeps the session form on a listed book *)




(** ** Days with sessions *)

Lemma run_within_unique_days (ss : list ReadingSession) (d : Z) (n : nat) :
  (forall i : nat, (i < n)%nat -> loggedOn ss (d - Z.of_nat i)) -> (n <= uniqueDays ss)%nat.
Proof.
  intros Hrun.
  set (run := map (fun i : nat => IsoDate (d - Z.of_nat i)) (seq 0 n)).
  assert (List.NoDup run) as Hnd.
  { apply Finite.Injective_map_NoDup; [|apply seq_NoDup].
    intros i j Hij. inversion Hij. lia. }
  assert (incl run (nodup DateStr_eq_dec (map ReadingSession.date ss))) as Hincl.
  { intros x Hx. apply in_map_iff in Hx as (i & <- & Hi). apply in_seq in Hi.
    apply nodup_In. apply Hrun. lia. }
  pose proof (NoDup_incl_length Hnd Hincl) as Hlen.
  unfold run in Hlen. rewrite length_map, length_seq in Hlen. done.
Qed.

(** In a zone of fixed offset the streak is never longer than the number of
    distinct session dates, which is never more than the number of
    sessions. *)
Theorem streak_at_most_unique_days (tz now : Z) (ss : list ReadingSession) :
  (exists n : nat,
      streak (fixedOffset tz) now ss = Some (Z.of_nat n) /\ (n <= uniqueDays ss)%nat)
  /\ (uniqueDays ss <= length ss)%nat.
Proof.
  split.
  - destruct (loggedOn_dec ss (isoDay now)) as [Hin|Hout].
    + destruct (runOfDays_exists ss (isoDay now)) as [n Hn].
      exists n. split; [apply streak_run; by left|].
      apply (run_within_unique_days ss (isoDay now)). apply Hn.
    + destruct (runOfDays_exists ss (isoDay now - 1)) as [n Hn].
      exists n. split; [apply streak_run; by right|].
      apply (run_within_unique_days ss (isoDay now - 1)). apply Hn.
  - unfold uniqueDays. rewrite <- (length_map ReadingSession.date ss).
    apply NoDup_incl_length; [apply NoDup_nodup|].
    intros x Hx. by apply nodup_In in Hx.
Qed.

(** ** [totalDays] *)

Lemma roundQuotient_days (n : Z) : roundQuotient (n * msPerDay) msPerDay = n.
Proof.
  unfold roundQuotient.
  replace (2 * (n * msPerDay) + msPerDay) with (msPerDay + n * (2 * msPerDay)) by lia.
  rewrite Z.div_add by (unfold msPerDay; lia).
  rewrite Z.div_small by (unfold msPerDay; lia). lia.
Qed.

Lemma sorted_last_greatest (l : list Z) (d x : Z) :
  StronglySorted Z.le l -> In x l -> x <= List.last l d.
Proof.
  intros Hsorted. revert x.
  induction Hsorted as [|y l Hs IH Hy]; intros x Hin; [done|].
  destruct l as [|z l].
  - destruct Hin as [->|[]]. simpl. lia.
  - change (List.last (y :: z :: l) d) with (List.last (z :: l) d).
    destruct Hin as [->|Hin]; [|by apply IH].
    apply List.Forall_cons_iff in Hy as [Hyz _].
    specialize (IH z (or_introl eq_refl)). lia.
Qed.

Lemma last_In (l : list Z) (x d : Z) : In (List.last (x :: l) d) (x :: l).
Proof.
  revert x. induction l as [|y l IH]; intros x; [by left|].
  change (List.last (x :: y :: l) d) with (List.last (y :: l) d). right. apply IH.
Qed.

Lemma timestamps_In (ss : list ReadingSession) (t : Z) :
  In t (omap (fun session => getTime (ReadingSession.date session)) ss)
  <-> exists d, loggedOn ss d /\ t = d * msPerDay.
Proof.
  rewrite <- list_elem_of_In, list_elem_of_omap. unfold loggedOn. split.
  - intros (s & Hs & Ht). apply list_elem_of_In in Hs.
    destruct (ReadingSession.date s) as [d|raw] eqn:Hd; [|discriminate Ht].
    inversion Ht. exists d. split; [|done]. rewrite <- Hd. by apply in_map.
  - intros (d & Hin & ->). apply in_map_iff in Hin as (s & Hd & Hs).
    exists s. split; [by apply list_elem_of_In|]. by rewrite Hd.
Qed.

(** [totalDays] is 0 when no session has a date that parses; otherwise it is
    the number of days from the earliest session date to the latest, both
    counted. *)
Theorem totalDays_spans_first_to_last (ss : list ReadingSession) :
  ((forall d, ~ loggedOn ss d) -> totalDays ss = 0)
  /\ forall lo hi,
       loggedOn ss lo -> loggedOn ss hi ->
       (forall d, loggedOn ss d -> lo <= d <= hi) ->
       totalDays ss = hi - lo + 1.
Proof.
  set (times := omap (fun session => getTime (ReadingSession.date session)) ss).
  set (cmp := fun a b : Z => a - b).
  assert (Permutation (sort cmp times) times) as Hperm by apply sort_perm.
  assert (StronglySorted Z.le (sort cmp times)) as Hsorted.
  { apply (sort_sorted cmp Z.le (fun _ => True)).
    - intros x y z. lia.
    - intros x y _ _ H. unfold cmp in H. lia.
    - intros x y _ _ H. unfold cmp in H. lia.
    - apply List.Forall_forall. done. }
  assert (forall t, In t (sort cmp times) <-> exists d, loggedOn ss d /\ t = d * msPerDay)
    as Hmem.
  { intros t. rewrite <- timestamps_In. split; apply Permutation_in; [done|by symmetry]. }
  split.
  - intros Hnone. unfold totalDays. destruct ss as [|s ss']; [done|].
    fold times. fold cmp.
    destruct (sort cmp times) as [|first rest]; [done|].
    destruct (proj1 (Hmem first) (or_introl eq_refl)) as (d & Hd & _).
    destruct (Hnone d Hd).
  - intros lo hi Hlo Hhi Hall. unfold totalDays.
    destruct ss as [|s ss']; [destruct Hlo|].
    fold times. fold cmp.
    destruct (sort cmp times) as [|first rest] eqn:Hsort.
    { exfalso. apply (proj2 (Hmem (lo * msPerDay))). by exists lo. }
    cbv zeta.
    assert (first = lo * msPerDay) as ->.
    { destruct (proj1 (Hmem first) (or_introl eq_refl)) as (d & Hd & ->).
      assert (In (lo * msPerDay) (d * msPerDay :: rest)) as Hin
        by (apply Hmem; by exists lo).
      apply StronglySorted_inv in Hsorted as [_ Hfirst].
      assert (d * msPerDay <= lo * msPerDay) as Hle.
      { destruct Hin as [<-|Hin]; [lia|].
        exact (proj1 (List.Forall_forall _ _) Hfirst _ Hin). }
      pose proof (Hall d Hd). unfold msPerDay in *. lia. }
    assert (List.last (lo * msPerDay :: rest) (lo * msPerDay) = hi * msPerDay) as ->.
    { destruct (proj1 (Hmem _) (last_In rest (lo * msPerDay) (lo * msPerDay)))
        as (d & Hd & Hlast).
      assert (hi * msPerDay <= List.last (lo * msPerDay :: rest) (lo * msPerDay)) as Hle.
      { apply sorted_last_greatest; [done|]. apply Hmem. by exists hi. }
      pose proof (Hall d Hd). rewrite Hlast in *. unfold msPerDay in *. lia. }
    replace (hi * msPerDay - lo * msPerDay) with ((hi - lo) * msPerDay) by lia.
    rewrite roundQuotient_days. pose proof (Hall lo Hlo). unfold cmp. lia.
Qed.

Lemma totalDays_spans_first_to_last_witness :
  totalDays [sampleSession "s3" 20000 5 10; sampleSession "s2" 19990 5 10;
             sampleSession "s1" 19995 5 10] = 20000 - 19990 + 1.
Proof.
  apply (proj2 (totalDays_spans_first_to_last
                  [sampleSession "s3" 20000 5 10; sampleSession "s2" 19990 5 10;
                   sampleSession "s1" 19995 5 10]) 19990 20000).
  - right. left. reflexivity.
  - left. reflexivity.
  - intros d [H|[H|[H|[]]]]; inversion H; lia.
Defined.
